(** * httplog: the request-logging decorator of the API server

    A shallow embedding of
    [staging/src/k8s.io/apiserver/pkg/server/httplog/httplog.go]
    and the properties of its status predicates, of the [respLogger]
    state machine, of the request-scoped lookup and of [WithLogging].

    Conventions of the embedding:
    - Go's [int] is [Z]; the package only compares and stores status
      codes, it never does arithmetic on them, so no wrap-around occurs.
    - Go strings are [string] (a sequence of 8-bit characters).
    - [interface{}] values that reach the log sink are the tagged union
      [Any].
    - A method with a pointer receiver is a function that takes the
      pointed-to struct and returns the updated struct; the package-level
      functions that reach a [*respLogger] through the request context
      work on a heap of structs ([World]).
    - Collaborators that live outside the package (the wrapped
      [http.ResponseWriter], [fmt.Sprintf], the [metrics] and [request]
      helpers) are the fields of the class [Collaborators]. *)

From stdpp Require Import base numbers option list strings gmap.

Open Scope Z_scope.

(** ** Status predicates *)

(** [type StacktracePred func(httpStatus int) (logStacktrace bool)] *)
Definition StacktracePred : Type := Z -> bool.

(** Constants of [net/http] used by the package. *)
Definition http_StatusSwitchingProtocols : Z := 101.
Definition http_StatusOK : Z := 200.
Definition http_StatusInternalServerError : Z := 500.

Definition DefaultStacktracePred (status : Z) : bool :=
  ((status <? http_StatusOK) || (status >=? http_StatusInternalServerError))
  && negb (status =? http_StatusSwitchingProtocols).

(** The map built by the loop
    [for _, s := range statuses { statusesNoTrace[s] = true }]. *)
Definition statusesNoTrace_of (statuses : list Z) : gmap Z bool :=
  foldl (fun m s => <[s := true]> m) ∅ statuses.

Definition StatusIsNot (statuses : list Z) : StacktracePred :=
  let statusesNoTrace := statusesNoTrace_of statuses in
  fun status =>
    match statusesNoTrace !! status with
    | Some _ => false   (* ok *)
    | None => true
    end.

(** ** Data model *)

(** [time.Time] and [time.Duration], both counted in nanoseconds. *)
Definition Time : Type := Z.
Definition Duration : Type := Z.

Definition minDuration : Duration := - 2 ^ 63.
Definition maxDuration : Duration := 2 ^ 63 - 1.

(** [t.Sub(u)]: the difference, saturated to the range of [Duration]. *)
Definition time_Sub (t u : Time) : Duration :=
  Z.max minDuration (Z.min maxDuration (t - u)).

(** [time.Since(start)], evaluated when the clock shows [now]. *)
Definition time_Since (now start : Time) : Duration := time_Sub now start.

(** The line feed, written ["\n"] in the source. *)
Definition LF : string := String (Ascii.ascii_of_nat 10) EmptyString.

(** [interface{}] values handed to the structured log sink. *)
Inductive Any : Type :=
| AString (s : string)
| AInt (n : Z)
| ABool (b : bool)
| ADuration (d : Duration)
| AOpaque (id : nat).

(** The optional interfaces of [net/http] that a writer may implement
    next to [http.ResponseWriter]. *)
Inductive Capability : Type := Flusher | CloseNotifier | Hijacker.

Record Capabilities : Type := {
  flusher : bool;
  closeNotifier : bool;
  hijacker : bool
}.

Definition ptr : Type := nat.

(** An [http.ResponseWriter] interface value: a dynamic type and the
    identity of the object.  [Inner] are the writers that do not come
    from this package (the transport's, or the fakes of the tests): their
    dynamic type fixes which optional interfaces they implement.
    [Decorator p] is the [*respLogger] at address [p] used as a writer;
    [Outer caps p] is a wrapper built by [WrapForHTTP1Or2] around the
    [*respLogger] at [p]. *)
Inductive ResponseWriter : Type :=
| Inner (caps : Capabilities) (addr : nat)
| Decorator (rl : ptr)
| Outer (caps : Capabilities) (rl : ptr).

(** [context.Context]: a chain of key/value bindings, the most recent
    first.  [respLoggerContextKey] is the package's private key. *)
Inductive ctxKey : Type :=
| respLoggerContextKey
| foreignKey (k : nat).

Inductive ctxValue : Type :=
| CtxRespLogger (rl : ptr)
| CtxForeign (v : Any).

Definition context_Context : Type := list (ctxKey * ctxValue).

Definition ctxKey_eqb (a b : ctxKey) : bool :=
  match a, b with
  | respLoggerContextKey, respLoggerContextKey => true
  | foreignKey x, foreignKey y => Nat.eqb x y
  | _, _ => false
  end.

Definition context_WithValue
    (parent : context_Context) (key : ctxKey) (val : ctxValue) : context_Context :=
  (key, val) :: parent.

Fixpoint context_Value (ctx : context_Context) (key : ctxKey) : option ctxValue :=
  match ctx with
  | [] => None
  | (k, v) :: parent =>
      if ctxKey_eqb k key then Some v else context_Value parent key
  end.

(** The parts of [*http.Request] the package reads. *)
Record Request : Type := {
  Method : string;
  RequestURI : string;
  UserAgent : string;
  RemoteAddr : string;
  Request_Context : context_Context
}.

Definition WithContext (r : Request) (ctx : context_Context) : Request :=
  {| Method := Method r; RequestURI := RequestURI r; UserAgent := UserAgent r;
     RemoteAddr := RemoteAddr r; Request_Context := ctx |}.

(** [type respLogger struct].  [addedInfo] is the content of the
    [strings.Builder]. *)
Module respLogger.

Record t : Type := {
  hijacked : bool;
  statusRecorded : bool;
  status : Z;
  statusStack : string;
  addedInfo : string;
  addedKeyValuePairs : list Any;
  startTime : Time;
  captureErrorOutput : bool;
  req : Request;
  w : ResponseWriter;
  logStacktracePred : StacktracePred
}.

(** Assignments to the fields the package writes after construction. *)
Definition set_hijacked (v : bool) (rl : t) : t :=
  {| hijacked := v; statusRecorded := statusRecorded rl; status := status rl;
     statusStack := statusStack rl; addedInfo := addedInfo rl;
     addedKeyValuePairs := addedKeyValuePairs rl; startTime := startTime rl;
     captureErrorOutput := captureErrorOutput rl; req := req rl; w := w rl;
     logStacktracePred := logStacktracePred rl |}.

Definition set_statusRecorded (v : bool) (rl : t) : t :=
  {| hijacked := hijacked rl; statusRecorded := v; status := status rl;
     statusStack := statusStack rl; addedInfo := addedInfo rl;
     addedKeyValuePairs := addedKeyValuePairs rl; startTime := startTime rl;
     captureErrorOutput := captureErrorOutput rl; req := req rl; w := w rl;
     logStacktracePred := logStacktracePred rl |}.

Definition set_status (v : Z) (rl : t) : t :=
  {| hijacked := hijacked rl; statusRecorded := statusRecorded rl; status := v;
     statusStack := statusStack rl; addedInfo := addedInfo rl;
     addedKeyValuePairs := addedKeyValuePairs rl; startTime := startTime rl;
     captureErrorOutput := captureErrorOutput rl; req := req rl; w := w rl;
     logStacktracePred := logStacktracePred rl |}.

Definition set_statusStack (v : string) (rl : t) : t :=
  {| hijacked := hijacked rl; statusRecorded := statusRecorded rl;
     status := status rl; statusStack := v; addedInfo := addedInfo rl;
     addedKeyValuePairs := addedKeyValuePairs rl; startTime := startTime rl;
     captureErrorOutput := captureErrorOutput rl; req := req rl; w := w rl;
     logStacktracePred := logStacktracePred rl |}.

Definition set_addedInfo (v : string) (rl : t) : t :=
  {| hijacked := hijacked rl; statusRecorded := statusRecorded rl;
     status := status rl; statusStack := statusStack rl; addedInfo := v;
     addedKeyValuePairs := addedKeyValuePairs rl; startTime := startTime rl;
     captureErrorOutput := captureErrorOutput rl; req := req rl; w := w rl;
     logStacktracePred := logStacktracePred rl |}.

Definition set_addedKeyValuePairs (v : list Any) (rl : t) : t :=
  {| hijacked := hijacked rl; statusRecorded := statusRecorded rl;
     status := status rl; statusStack := statusStack rl;
     addedInfo := addedInfo rl; addedKeyValuePairs := v;
     startTime := startTime rl; captureErrorOutput := captureErrorOutput rl;
     req := req rl; w := w rl; logStacktracePred := logStacktracePred rl |}.

Definition set_captureErrorOutput (v : bool) (rl : t) : t :=
  {| hijacked := hijacked rl; statusRecorded := statusRecorded rl;
     status := status rl; statusStack := statusStack rl;
     addedInfo := addedInfo rl; addedKeyValuePairs := addedKeyValuePairs rl;
     startTime := startTime rl; captureErrorOutput := v; req := req rl;
     w := w rl; logStacktracePred := logStacktracePred rl |}.

Definition set_logStacktracePred (v : StacktracePred) (rl : t) : t :=
  {| hijacked := hijacked rl; statusRecorded := statusRecorded rl;
     status := status rl; statusStack := statusStack rl;
     addedInfo := addedInfo rl; addedKeyValuePairs := addedKeyValuePairs rl;
     startTime := startTime rl; captureErrorOutput := captureErrorOutput rl;
     req := req rl; w := w rl; logStacktracePred := v |}.

End respLogger.

Abbreviation respLogger := respLogger.t.

(** What a call gives back: a value, or a panic that unwinds the caller. *)
Inductive Result (A : Type) : Type :=
| Ok (a : A)
| Panic (v : string).
Arguments Ok {A} a.
Arguments Panic {A} v.

(** The triple returned by [http.Hijacker.Hijack]; the connection and the
    buffered reader/writer by identity, [nil] error as [None]. *)
Record HijackResult : Type := {
  hijack_conn : nat;
  hijack_bufrw : nat;
  hijack_err : option string
}.

(** One call of [klog.InfoSDepth(depth, msg, keysAndValues...)]. *)
Record LogEntry : Type := {
  entry_depth : Z;
  entry_msg : string;
  entry_keysAndValues : list Any
}.

(** ** Collaborators

    The code outside the package that the decorator calls.  [T] is the
    state of the wrapped writers; the [inner_] functions are the methods
    of the writer held in [rl.w].  The remaining fields are [fmt.Sprintf],
    [strings.ToUpper] and the helpers of the [request] and [metrics]
    packages, none of which the package under study defines. *)
Class Collaborators (T : Type) : Type := {
  RequestInfo : Type;
  inner_Header : ResponseWriter -> T -> T * gmap string (list string);
  inner_Write : ResponseWriter -> string -> T -> T * (Z * option string);
  inner_WriteHeader : ResponseWriter -> Z -> T -> T;
  inner_Hijack : ResponseWriter -> T -> T * HijackResult;
  fmt_Sprintf : string -> list Any -> string;
  strings_ToUpper : string -> string;
  request_GetAuditIDTruncated : Request -> string;
  request_RequestInfoFrom : context_Context -> option RequestInfo;
  request_ReceivedTimestampFrom : context_Context -> option Time;
  metrics_CleanScope : RequestInfo -> string;
  metrics_CanonicalVerb : string -> string -> string;
  metrics_CleanVerb : string -> Request -> string
}.

(** [runtime.Stack(buf, false)] writes the trace of the calling
    goroutine into [buf] and returns the number of bytes written, at most
    [len(buf)]; [trace] is the full text of the caller's stack, so
    [stack[:runtime.Stack(stack, false)]] is its prefix of at most
    [len(stack)] bytes. *)
Definition runtime_Stack (buf_len : nat) (trace : string) : string :=
  String.substring 0 buf_len trace.

(** The type assertion [x.(http.Flusher)] and its siblings: whether the
    dynamic type of the writer has the method.  [*respLogger] declares
    [Hijack], and neither [Flush] nor [CloseNotify]. *)
Definition implements (x : ResponseWriter) (c : Capability) : bool :=
  match x with
  | Inner caps _ | Outer caps _ =>
      match c with
      | Flusher => flusher caps
      | CloseNotifier => closeNotifier caps
      | Hijacker => hijacker caps
      end
  | Decorator _ =>
      match c with
      | Hijacker => true
      | Flusher | CloseNotifier => false
      end
  end.

(** ** The methods of [*respLogger]

    Each method takes the struct behind the receiver (and the state [T]
    of the wrapped writer when it calls into it) and returns the updated
    struct.  [trace] is the text of the caller's stack at the call, the
    data [runtime.Stack] would format. *)
Section Methods.

Context {T : Type} {C : Collaborators T}.

Definition Unwrap (rl : respLogger) : ResponseWriter :=
  respLogger.w rl.

Definition StacktraceWhen (pred : StacktracePred) (rl : respLogger) : respLogger :=
  respLogger.set_logStacktracePred pred rl.

Definition Addf (format : string) (data : list Any) (rl : respLogger) : respLogger :=
  let rl := respLogger.set_addedInfo (respLogger.addedInfo rl +:+ LF) rl in
  respLogger.set_addedInfo
    (respLogger.addedInfo rl +:+ fmt_Sprintf format data) rl.

Definition AddKeyValue (key : string) (value : Any) (rl : respLogger) : respLogger :=
  respLogger.set_addedKeyValuePairs
    (respLogger.addedKeyValuePairs rl ++ [AString key; value]) rl.

Definition recordStatus (trace : string) (status : Z) (rl : respLogger) : respLogger :=
  let rl := respLogger.set_status status rl in
  let rl := respLogger.set_statusRecorded true rl in
  if respLogger.logStacktracePred rl status then
    (* Only log stacks for errors *)
    let stack := runtime_Stack (Z.to_nat (50 * 1024)) trace in
    let rl := respLogger.set_statusStack (LF +:+ stack) rl in
    respLogger.set_captureErrorOutput true rl
  else
    respLogger.set_statusStack "" rl.

Definition Header (rl : respLogger) (t : T) : T * gmap string (list string) :=
  inner_Header (respLogger.w rl) t.

Definition Write (trace : string) (b : string) (rl : respLogger) (t : T)
  : respLogger * T * (Z * option string) :=
  let rl :=
    if negb (respLogger.statusRecorded rl)
    then recordStatus trace http_StatusOK rl (* Default if WriteHeader hasn't been called *)
    else rl in
  let rl :=
    if respLogger.captureErrorOutput rl
    then Addf ("logging error output: %q" +:+ LF) [AString b] rl
    else rl in
  let '(t, res) := inner_Write (respLogger.w rl) b t in
  (rl, t, res).

Definition WriteHeader (trace : string) (status : Z) (rl : respLogger) (t : T)
  : respLogger * T :=
  let rl := recordStatus trace status rl in
  (rl, inner_WriteHeader (respLogger.w rl) status t).

(** [rl.w.(http.Hijacker)] panics when the wrapped writer has no
    [Hijack] method; the flag is already set by then.  The text of the
    panic stands for the [runtime.TypeAssertionError] of the Go
    runtime. *)
Definition Hijack (rl : respLogger) (t : T)
  : respLogger * T * Result HijackResult :=
  let rl := respLogger.set_hijacked true rl in
  if implements (respLogger.w rl) Hijacker then
    let '(t, r) := inner_Hijack (respLogger.w rl) t in
    (rl, t, Ok r)
  else
    (rl, t, Panic "interface conversion: http.ResponseWriter is not http.Hijacker").

(** The [keysAndValues] slice that [Log] hands to the sink, built by the
    same appends as in the source; [now] is the clock at the call. *)
Definition Log_keysAndValues (now : Time) (rl : respLogger) : list Any :=
  let latency := time_Since now (respLogger.startTime rl) in
  let auditID := request_GetAuditIDTruncated (respLogger.req rl) in
  let verb := Method (respLogger.req rl) in
  let verb :=
    match request_RequestInfoFrom (Request_Context (respLogger.req rl)) with
    | Some requestInfo =>
        let scope := metrics_CleanScope requestInfo in
        metrics_CanonicalVerb (strings_ToUpper verb) scope
    | None => verb
    end in
  let verb := metrics_CleanVerb verb (respLogger.req rl) in
  let keysAndValues :=
    [ AString "verb"; AString verb;
      AString "URI"; AString (RequestURI (respLogger.req rl));
      AString "latency"; ADuration latency;
      AString "userAgent"; AString (UserAgent (respLogger.req rl));
      AString "audit-ID"; AString auditID;
      AString "srcIP"; AString (RemoteAddr (respLogger.req rl)) ] in
  let keysAndValues := keysAndValues ++ respLogger.addedKeyValuePairs rl in
  if respLogger.hijacked rl then
    keysAndValues ++ [AString "hijacked"; ABool true]
  else
    let keysAndValues :=
      keysAndValues ++ [AString "resp"; AInt (respLogger.status rl)] in
    let keysAndValues :=
      if (0 <? String.length (respLogger.statusStack rl))%nat
      then keysAndValues ++ [AString "statusStack"; AString (respLogger.statusStack rl)]
      else keysAndValues in
    let info := respLogger.addedInfo rl in
    if (0 <? String.length info)%nat
    then keysAndValues ++ [AString "addedInfo"; AString info]
    else keysAndValues.

(** [Log]: one [klog.InfoSDepth(1, "HTTP", keysAndValues...)] appended to
    what the sink received. *)
Definition Log (now : Time) (rl : respLogger) (sink : list LogEntry) : list LogEntry :=
  sink ++ [ {| entry_depth := 1; entry_msg := "HTTP";
               entry_keysAndValues := Log_keysAndValues now rl |} ].

(** *** Sequences of calls on one decorator

    The calls a handler can make on a decorator, with the data the
    environment supplies at each one (the caller's stack, the clock).  A
    handler that recovers from the panic of [Hijack] goes on with the
    struct as [Hijack] left it, so [step] keeps the state and drops the
    return value. *)
Inductive Call : Type :=
| CallWriteHeader (trace : string) (status : Z)
| CallWrite (trace : string) (b : string)
| CallHijack
| CallAddf (format : string) (data : list Any)
| CallAddKeyValue (key : string) (value : Any)
| CallStacktraceWhen (pred : StacktracePred)
| CallLog (now : Time)
| CallHeader
| CallUnwrap.

Record State : Type := {
  st_rl : respLogger;
  st_transport : T;
  st_sink : list LogEntry
}.

Definition step (st : State) (c : Call) : State :=
  let rl := st_rl st in
  let t := st_transport st in
  let sink := st_sink st in
  match c with
  | CallWriteHeader trace status =>
      let '(rl, t) := WriteHeader trace status rl t in
      {| st_rl := rl; st_transport := t; st_sink := sink |}
  | CallWrite trace b =>
      let '(rl, t, _) := Write trace b rl t in
      {| st_rl := rl; st_transport := t; st_sink := sink |}
  | CallHijack =>
      let '(rl, t, _) := Hijack rl t in
      {| st_rl := rl; st_transport := t; st_sink := sink |}
  | CallAddf format data =>
      {| st_rl := Addf format data rl; st_transport := t; st_sink := sink |}
  | CallAddKeyValue key value =>
      {| st_rl := AddKeyValue key value rl; st_transport := t; st_sink := sink |}
  | CallStacktraceWhen pred =>
      {| st_rl := StacktraceWhen pred rl; st_transport := t; st_sink := sink |}
  | CallLog now =>
      {| st_rl := rl; st_transport := t; st_sink := Log now rl sink |}
  | CallHeader =>
      {| st_rl := rl; st_transport := (Header rl t).1; st_sink := sink |}
  | CallUnwrap => st
  end.

Definition run (calls : list Call) (st : State) : State :=
  foldl step st calls.

(** The struct literal of [newLoggedWithStartTime]; the fields it does
    not name have their zero value. *)
Definition newRespLogger
    (req : Request) (w : ResponseWriter) (startTime : Time) : respLogger :=
  {| respLogger.hijacked := false;
     respLogger.statusRecorded := false;
     respLogger.status := 0;
     respLogger.statusStack := "";
     respLogger.addedInfo := "";
     respLogger.addedKeyValuePairs := [];
     respLogger.startTime := startTime;
     respLogger.captureErrorOutput := false;
     respLogger.req := req;
     respLogger.w := w;
     respLogger.logStacktracePred := DefaultStacktracePred |}.

End Methods.

(** ** Capability-preserving wrap *)

(** Modelled from the spec: [responsewriter.WrapForHTTP1Or2], of package
    [k8s.io/apiserver/pkg/endpoints/responsewriter], is not among the
    sources at hand.  It receives the decorator and reads the wrapped
    writer with [Unwrap].  Section 4.4 has it select "from a small fixed
    set of wrapper shapes"; the shapes are the two that section 8 and
    [TestRespLoggerWithDecoratedResponseWriter] require, those of the
    function's name: around a writer that supports flush and
    close-notify (the HTTP/2 writer) a wrapper that supports these two,
    and around one that supports hijack as well (the HTTP/1.x writer) a
    wrapper that supports all three; "the outer ResponseWriter object
    returned by WrapForHTTP1Or2 implements http.Hijacker if the inner
    object (rl.w) implements http.Hijacker", says [Hijack].  A writer
    that is neither gets no wrapper: the test requires the result of
    [newLogged] on a [FakeResponseWriter] to be of dynamic type
    [*respLogger], the decorator itself. *)
Definition WrapForHTTP1Or2 (decorator : ptr) (rl : respLogger) : ResponseWriter :=
  let inner := Unwrap rl in
  if implements inner CloseNotifier && implements inner Flusher then
    if implements inner Hijacker
    then Outer {| flusher := true; closeNotifier := true; hijacker := true |}
           decorator
    else Outer {| flusher := true; closeNotifier := true; hijacker := false |}
           decorator
  else
    Decorator decorator.

(** ** The package-level functions

    They reach the decorator through the pointer stored in the request
    context, so they run on a [World]: the heap of allocated [respLogger]
    structs (a pointer is an index; Go never frees a reachable struct),
    the state of the wrapped writers, the clock read by [time.Now], the
    verbosity of klog and what the log sink has received. *)
Section Package.

Context {T : Type} {C : Collaborators T}.

Record World : Type := {
  heap : list respLogger;
  transport : T;
  clock : Time;
  verbosity : Z;
  sink : list LogEntry
}.

Definition set_heap (v : list respLogger) (s : World) : World :=
  {| heap := v; transport := transport s; clock := clock s;
     verbosity := verbosity s; sink := sink s |}.

Definition set_sink (v : list LogEntry) (s : World) : World :=
  {| heap := heap s; transport := transport s; clock := clock s;
     verbosity := verbosity s; sink := v |}.

(** How a call of a handler ends. *)
Inductive Outcome : Type :=
| Returned (s : World)
| Panicked (v : string) (s : World).

(** [http.Handler]: [ServeHTTP(w, req)] as a function of the world. *)
Definition Handler : Type := ResponseWriter -> Request -> World -> Outcome.

Definition nilDereference : string :=
  "invalid memory address or nil pointer dereference".

(** [klog.V(level).Enabled()] *)
Definition klog_V_Enabled (level : Z) (s : World) : bool :=
  level <=? verbosity s.

(** respLoggerFromContext returns the respLogger or nil. *)
Definition respLoggerFromContext (ctx : context_Context) : option ptr :=
  let val := context_Value ctx respLoggerContextKey in
  match val with
  | Some (CtxRespLogger rl) => Some rl
  | _ => None
  end.

Definition respLoggerFromRequest (req : Request) : option ptr :=
  respLoggerFromContext (Request_Context req).

Definition newLoggedWithStartTime
    (req : Request) (w : ResponseWriter) (startTime : Time) (s : World)
  : ptr * ResponseWriter * World :=
  let logger := length (heap s) in
  let l := newRespLogger req w startTime in
  let s := set_heap (heap s ++ [l]) s in
  let rw := WrapForHTTP1Or2 logger l in
  (logger, rw, s).

(** newLogged turns a normal response writer into a logged response writer. *)
Definition newLogged (req : Request) (w : ResponseWriter) (s : World)
  : ptr * ResponseWriter * World :=
  newLoggedWithStartTime req w (clock s) s.

(** The interface [logger] with its two implementations. *)
Inductive logger : Type :=
| RespLoggerLogger (rl : ptr)
| PassthroughLogger.

Definition LogOf (req : Request) (w : ResponseWriter) : logger :=
  match respLoggerFromRequest req with
  | Some rl => RespLoggerLogger rl
  | None => PassthroughLogger
  end.

(** [passthroughLogger.Addf]: logs info immediately. *)
Definition passthroughLogger_Addf (format : string) (data : list Any) (s : World) : World :=
  if klog_V_Enabled 2 s
  then set_sink (sink s ++ [ {| entry_depth := 0;
                                entry_msg := fmt_Sprintf format data;
                                entry_keysAndValues := [] |} ]) s
  else s.

(** Unlogged returns the original ResponseWriter, or w if it is not our
    inserted logger. *)
Definition Unlogged (req : Request) (w : ResponseWriter) (s : World)
  : Result ResponseWriter :=
  match respLoggerFromRequest req with
  | Some rl =>
      match heap s !! rl with
      | Some l => Ok (respLogger.w l)
      | None => Panic nilDereference
      end
  | None => Ok w
  end.

Definition AddInfof
    (ctx : context_Context) (format : string) (data : list Any) (s : World) : World :=
  match respLoggerFromContext ctx with
  | Some rl => set_heap (alter (Addf format data) rl (heap s)) s
  | None => s
  end.

(** The package-level [AddKeyValue(ctx, key, value)]. *)
Definition AddKeyValueCtx
    (ctx : context_Context) (key : string) (value : Any) (s : World) : World :=
  match respLoggerFromContext ctx with
  | Some rl => set_heap (alter (AddKeyValue key value) rl (heap s)) s
  | None => s
  end.

(** [rl.Log()] through the pointer. *)
Definition Log_at (rl : ptr) (s : World) : Outcome :=
  match heap s !! rl with
  | Some l => Returned (set_sink (Log (clock s) l (sink s)) s)
  | None => Panicked nilDereference s
  end.

(** A deferred call runs when the function returns and when it unwinds;
    the panic that was unwinding goes on afterwards. *)
Definition run_deferred (deferred : World -> Outcome) (r : Outcome) : Outcome :=
  match r with
  | Returned s => deferred s
  | Panicked v s =>
      match deferred s with
      | Returned s' => Panicked v s'
      | Panicked v' s' => Panicked v' s'
      end
  end.

(** WithLogging wraps the handler with logging. *)
Definition WithLogging (handler : Handler) (pred : StacktracePred) : Handler :=
  fun w req s =>
    let ctx := Request_Context req in
    match respLoggerFromRequest req with
    | Some old => Panicked "multiple WithLogging calls!" s
    | None =>
        let startTime := clock s in
        let startTime :=
          match request_ReceivedTimestampFrom ctx with
          | Some receivedTimestamp => receivedTimestamp
          | None => startTime
          end in
        let '(rl, w, s) := newLoggedWithStartTime req w startTime s in
        let s := set_heap (alter (StacktraceWhen pred) rl (heap s)) s in
        let req :=
          WithContext req
            (context_WithValue ctx respLoggerContextKey (CtxRespLogger rl)) in
        if klog_V_Enabled 3 s
        then run_deferred (Log_at rl) (handler w req s)
        else handler w req s
    end.

End Package.

(** ** The collaborators of the unit tests

    [responsewriter.FakeResponseWriter] and its siblings accept every
    call and do nothing; the test requests carry no request info, audit
    ID or received timestamp.  Used to run the definitions on concrete
    inputs. *)
Definition fakeCollaborators : Collaborators unit :=
  {| RequestInfo := unit;
     inner_Header := fun _ t => (t, ∅);
     inner_Write := fun _ _ t => (t, (0, None));
     inner_WriteHeader := fun _ _ t => t;
     inner_Hijack := fun _ t =>
       (t, {| hijack_conn := 0; hijack_bufrw := 0; hijack_err := None |});
     fmt_Sprintf := fun format _ => format;
     strings_ToUpper := fun s => s;
     request_GetAuditIDTruncated := fun _ => "";
     request_RequestInfoFrom := fun _ => None;
     request_ReceivedTimestampFrom := fun _ => None;
     metrics_CleanScope := fun _ => "";
     metrics_CanonicalVerb := fun verb _ => verb;
     metrics_CleanVerb := fun verb _ => verb |}.

(** The writers of the unit tests. *)
Definition FakeResponseWriter : ResponseWriter :=
  Inner {| flusher := false; closeNotifier := false; hijacker := false |} 0.

Definition FakeResponseWriterFlusherCloseNotifier : ResponseWriter :=
  Inner {| flusher := true; closeNotifier := true; hijacker := false |} 0.

Definition FakeResponseWriterFlusherCloseNotifierHijacker : ResponseWriter :=
  Inner {| flusher := true; closeNotifier := true; hijacker := true |} 0.

(** [http.NewRequest("GET", "http://example.com", nil)] *)
Definition exampleRequest : Request :=
  {| Method := "GET"; RequestURI := ""; UserAgent := ""; RemoteAddr := "";
     Request_Context := [] |}.

(** A world at the start of a test: nothing allocated, verbosity
    [v]. *)
Definition emptyWorld (v : Z) : @World unit :=
  {| heap := []; transport := tt; clock := 0; verbosity := v; sink := [] |}.

(** The handler of [TestWithLogging], which does nothing. *)
Definition noopHandler {T : Type} : @Handler T :=
  fun _ _ s => Returned s.

(** ** Classification of calls, for the statements below *)

Definition is_WriteHeader (c : Call) : bool :=
  match c with
  | CallWriteHeader _ _ => true
  | _ => false
  end.

Definition is_Write (c : Call) : bool :=
  match c with
  | CallWrite _ _ => true
  | _ => false
  end.

(** The key/value arguments of the [AddKeyValue] calls of a sequence, in
    the order of the calls. *)
Definition addedPairs (calls : list Call) : list Any :=
  concat (map (fun c =>
                 match c with
                 | CallAddKeyValue key value => [AString key; value]
                 | _ => []
                 end) calls).

(** The state of a decorator just built by [newLoggedWithStartTime]. *)
Definition freshState {T : Type}
    (req : Request) (w : ResponseWriter) (startTime : Time) (t : T) : @State T :=
  {| st_rl := newRespLogger req w startTime; st_transport := t; st_sink := [] |}.

(** ** Further vocabulary for the statements below *)

(** The calls that record a status. *)
Definition records_status (c : Call) : bool :=
  is_WriteHeader c || is_Write c.

Definition is_Log (c : Call) : bool :=
  match c with
  | CallLog _ => true
  | _ => false
  end.

(** The calls that leave the predicate, the connection and the free-text
    info alone and record no explicit status: [Write], [AddKeyValue],
    [Log], [Header] and [Unwrap]. *)
Definition is_quiet (c : Call) : bool :=
  match c with
  | CallWrite _ _ | CallAddKeyValue _ _ | CallLog _ | CallHeader
  | CallUnwrap => true
  | CallWriteHeader _ _ | CallHijack | CallAddf _ _ | CallStacktraceWhen _ =>
      false
  end.

(** What a call on the decorator asks of the wrapped writer [w]: the
    same call with the same arguments for [WriteHeader], [Write] and
    [Header], the hijack when [w] has the method, nothing for the other
    calls. *)
Definition forwarded {T : Type} {C : Collaborators T}
    (w : ResponseWriter) (t : T) (c : Call) : T :=
  match c with
  | CallWriteHeader _ status => inner_WriteHeader w status t
  | CallWrite _ b => (inner_Write w b t).1
  | CallHijack => if implements w Hijacker then (inner_Hijack w t).1 else t
  | CallHeader => (inner_Header w t).1
  | CallAddf _ _ | CallAddKeyValue _ _ | CallStacktraceWhen _ | CallLog _
  | CallUnwrap => t
  end.


(** ** Theorems on the status predicates *)

Lemma foldl_insert_lookup (statuses : list Z) (m : gmap Z bool) (s : Z) :
  is_Some (foldl (fun m s => <[s := true]> m) m statuses !! s)
  <-> (In s statuses \/ is_Some (m !! s)).
Proof.
  revert m. induction statuses as [|x xs IH]; intros m; simpl.
  - split; [auto | intros [[]|H]; exact H].
  - rewrite IH. destruct (decide (x = s)) as [->|Hne].
    + rewrite lookup_insert_eq. split; [|eauto].
      intros [H|H]; auto.
    + rewrite lookup_insert_ne by done. split.
      * intros [H|H]; auto.
      * intros [[H|H]|H]; auto. contradiction.
Qed.

Lemma statusesNoTrace_lookup (statuses : list Z) (s : Z) :
  is_Some (statusesNoTrace_of statuses !! s) <-> In s statuses.
Proof.
  unfold statusesNoTrace_of. rewrite foldl_insert_lookup.
  rewrite lookup_empty. split; [|auto].
  intros [H|[x H]]; [exact H | discriminate].
Qed.

Lemma StatusIsNot_true_iff (statuses : list Z) (s : Z) :
  StatusIsNot statuses s = true <-> ~ In s statuses.
Proof.
  rewrite <- statusesNoTrace_lookup. unfold StatusIsNot.
  destruct (statusesNoTrace_of statuses !! s) as [b|] eqn:E.
  - split; [discriminate | intros H; exfalso; apply H; eauto].
  - split; [intros _ [x Hx]; discriminate | reflexivity].
Qed.

(** C4: [DefaultStacktracePred status] holds exactly when
    [status < 200 \/ status >= 500] and [status <> 101]; it holds at 100
    and 500 and fails at 101, 200, 204, 302, 400 and 404. *)
Theorem DefaultStacktracePred_spec :
  (forall status : Z,
      DefaultStacktracePred status = true
      <-> ((status < 200 \/ status >= 500) /\ status <> 101))
  /\ Forall (fun x => DefaultStacktracePred x = true) [100; 500]
  /\ Forall (fun x => DefaultStacktracePred x = false)
            [101; 200; 204; 302; 400; 404].
Proof.
  split; [|split].
  - intros status. unfold DefaultStacktracePred, http_StatusOK,
      http_StatusInternalServerError, http_StatusSwitchingProtocols.
    rewrite andb_true_iff, orb_true_iff, negb_true_iff.
    rewrite Z.ltb_lt, Z.geb_le, Z.eqb_neq. lia.
  - repeat constructor.
  - repeat constructor.
Qed.

(** C5: the predicate returned by [StatusIsNot excludeList] is true at
    [s] exactly when [s] is not in [excludeList]; with the empty list it
    is true everywhere; two lists with the same members (whatever the
    order and the repetitions) give the same predicate. *)
Theorem StatusIsNot_spec (excludeList : list Z) (s : Z) :
  (StatusIsNot excludeList s = true <-> ~ In s excludeList)
  /\ StatusIsNot [] s = true
  /\ (forall excludeList' : list Z,
         (forall x, In x excludeList <-> In x excludeList') ->
         StatusIsNot excludeList' s = StatusIsNot excludeList s).
Proof.
  split; [apply StatusIsNot_true_iff | split; [reflexivity|]].
  intros l' Hsame.
  destruct (StatusIsNot l' s) eqn:E1, (StatusIsNot excludeList s) eqn:E2;
    try reflexivity.
  - apply StatusIsNot_true_iff in E1.
    assert (StatusIsNot excludeList s = true) as H
      by (apply StatusIsNot_true_iff; rewrite Hsame; exact E1).
    congruence.
  - apply StatusIsNot_true_iff in E2.
    assert (StatusIsNot l' s = true) as H
      by (apply StatusIsNot_true_iff; rewrite <- Hsame; exact E2).
    congruence.
Qed.

Lemma StatusIsNot_spec_witness :
  StatusIsNot [200; 202; 200] 201 = true
  /\ StatusIsNot [202; 200] 200 = StatusIsNot [200; 202; 200] 200.
Proof.
  split.
  - apply (proj1 (StatusIsNot_spec [200; 202; 200] 201)).
    simpl. lia.
  - apply (proj2 (proj2 (StatusIsNot_spec [200; 202; 200] 200)) [202; 200]).
    intros x. simpl. tauto.
Defined.

(** ** Theorems on the decorator *)
Section MethodFacts.

Context {T : Type} {C : Collaborators T}.

Implicit Types (rl : respLogger) (t : T) (st : @State T) (c : Call).

Ltac unfold_setters :=
  unfold respLogger.set_hijacked, respLogger.set_statusRecorded,
    respLogger.set_status, respLogger.set_statusStack,
    respLogger.set_addedInfo, respLogger.set_addedKeyValuePairs,
    respLogger.set_captureErrorOutput, respLogger.set_logStacktracePred in *.

Ltac unfold_methods :=
  unfold WriteHeader, Write, Hijack, Addf, AddKeyValue, StacktraceWhen,
    recordStatus in *;
  unfold_setters.

(** Splits the tests and the results of the wrapped writer that occur in
    the goal. *)
Ltac split_cases :=
  repeat match goal with
    | |- context [if ?b then _ else _] => destruct b eqn:?; simpl in *
    | |- context [inner_Write ?x ?b ?t] => destruct (inner_Write x b t); simpl in *
    | |- context [inner_Hijack ?x ?t] => destruct (inner_Hijack x t); simpl in *
    end.

Ltac crush_step := simpl; unfold_methods; simpl; split_cases; simpl; auto.

Lemma run_app (xs ys : list Call) st :
  run (xs ++ ys) st = run ys (run xs st).
Proof. unfold run. apply foldl_app. Qed.

Lemma run_cons c (cs : list Call) st : run (c :: cs) st = run cs (step st c).
Proof. reflexivity. Qed.

Lemma recordStatus_status trace status rl :
  respLogger.status (recordStatus trace status rl) = status.
Proof. crush_step. Qed.

Lemma recordStatus_statusRecorded trace status rl :
  respLogger.statusRecorded (recordStatus trace status rl) = true.
Proof. crush_step. Qed.

Lemma Write_status_recorded trace b rl t :
  respLogger.statusRecorded rl = true ->
  respLogger.status (Write trace b rl t).1.1 = respLogger.status rl.
Proof. intros Hrec. unfold Write. rewrite Hrec. crush_step. Qed.

Lemma Write_status_unrecorded trace b rl t :
  respLogger.statusRecorded rl = false ->
  respLogger.status (Write trace b rl t).1.1 = http_StatusOK.
Proof. intros Hrec. unfold Write. rewrite Hrec. crush_step. Qed.

Lemma Write_statusRecorded trace b rl t :
  respLogger.statusRecorded (Write trace b rl t).1.1 = true.
Proof.
  destruct (respLogger.statusRecorded rl) eqn:Hrec; unfold Write; rewrite Hrec;
    crush_step.
Qed.

Lemma step_statusRecorded_mono c st :
  respLogger.statusRecorded (st_rl st) = true ->
  respLogger.statusRecorded (st_rl (step st c)) = true.
Proof. destruct c; intros Hrec; crush_step; congruence. Qed.

Lemma step_status_kept c st :
  is_WriteHeader c = false ->
  respLogger.statusRecorded (st_rl st) = true ->
  respLogger.status (st_rl (step st c)) = respLogger.status (st_rl st).
Proof.
  destruct c; intros Hc Hrec; try discriminate; try reflexivity.
  - simpl. pose proof (Write_status_recorded trace b (st_rl st) (st_transport st) Hrec) as E.
    destruct (Write trace b (st_rl st) (st_transport st)) as [[rl' t'] res].
    exact E.
  - crush_step.
Qed.

Lemma run_status_kept (calls : list Call) st :
  Forall (fun c => is_WriteHeader c = false) calls ->
  respLogger.statusRecorded (st_rl st) = true ->
  respLogger.statusRecorded (st_rl (run calls st)) = true
  /\ respLogger.status (st_rl (run calls st)) = respLogger.status (st_rl st).
Proof.
  intros Hall. revert st. induction Hall as [|c cs Hc _ IH]; intros st Hrec.
  - split; [exact Hrec | reflexivity].
  - rewrite run_cons.
    destruct (IH (step st c) (step_statusRecorded_mono c st Hrec)) as [R S].
    split; [exact R|]. rewrite S. apply step_status_kept; assumption.
Qed.

(** Without any [WriteHeader], a decorator that has no status yet or has
    recorded 200 stays so, and a [Write] makes it recorded. *)
Lemma run_only_writes (calls : list Call) st :
  Forall (fun c => is_WriteHeader c = false) calls ->
  (respLogger.statusRecorded (st_rl st) = true ->
   respLogger.status (st_rl st) = http_StatusOK) ->
  (respLogger.statusRecorded (st_rl (run calls st)) = true ->
   respLogger.status (st_rl (run calls st)) = http_StatusOK)
  /\ (Exists (fun c => is_Write c = true) calls ->
      respLogger.statusRecorded (st_rl (run calls st)) = true).
Proof.
  intros Hall. revert st. induction Hall as [|c cs Hc Hcs IH]; intros st Hinv.
  - split; [exact Hinv | intros HE; inversion HE].
  - rewrite run_cons.
    assert (respLogger.statusRecorded (st_rl (step st c)) = true ->
            respLogger.status (st_rl (step st c)) = http_StatusOK) as Hinv'.
    { destruct (respLogger.statusRecorded (st_rl st)) eqn:Hrec.
      - intros _. rewrite step_status_kept by assumption. auto.
      - destruct c; try discriminate; simpl; try (rewrite Hrec; discriminate).
        + intros _.
          pose proof (Write_status_unrecorded trace b (st_rl st) (st_transport st) Hrec) as E.
          destruct (Write trace b (st_rl st) (st_transport st)) as [[rl' t'] res].
          exact E.
        + unfold Hijack. split_cases; congruence. }
    destruct (IH (step st c) Hinv') as [I1 I2]. split; [exact I1|].
    intros HE. apply Exists_cons in HE as [Hw|HE]; [|auto].
    assert (respLogger.statusRecorded (st_rl (step st c)) = true) as Hrec'.
    { destruct c; try discriminate. simpl.
      pose proof (Write_statusRecorded trace b (st_rl st) (st_transport st)) as E.
      destruct (Write trace b (st_rl st) (st_transport st)) as [[rl' t'] res].
      exact E. }
    apply (run_status_kept cs (step st c) Hcs) in Hrec' as [R _]. exact R.
Qed.

Lemma recordStatus_match trace status rl :
  respLogger.logStacktracePred rl status = true ->
  respLogger.statusStack (recordStatus trace status rl) <> ""
  /\ respLogger.captureErrorOutput (recordStatus trace status rl) = true.
Proof.
  intros Hp. unfold recordStatus. simpl. rewrite Hp. simpl.
  split; [discriminate | reflexivity].
Qed.

Lemma recordStatus_no_match trace status rl :
  respLogger.logStacktracePred rl status = false ->
  respLogger.statusStack (recordStatus trace status rl) = ""
  /\ respLogger.captureErrorOutput (recordStatus trace status rl)
     = respLogger.captureErrorOutput rl.
Proof.
  intros Hp. unfold recordStatus. simpl. rewrite Hp. simpl.
  split; reflexivity.
Qed.

Lemma recordStatus_stack_capture trace status rl :
  (respLogger.statusStack rl <> "" -> respLogger.captureErrorOutput rl = true) ->
  respLogger.statusStack (recordStatus trace status rl) <> "" ->
  respLogger.captureErrorOutput (recordStatus trace status rl) = true.
Proof.
  intros _. destruct (respLogger.logStacktracePred rl status) eqn:Hp.
  - intros _. apply recordStatus_match, Hp.
  - destruct (recordStatus_no_match trace status rl Hp) as [E _].
    rewrite E. congruence.
Qed.

Lemma step_stack_capture c st :
  (respLogger.statusStack (st_rl st) <> "" ->
   respLogger.captureErrorOutput (st_rl st) = true) ->
  respLogger.statusStack (st_rl (step st c)) <> "" ->
  respLogger.captureErrorOutput (st_rl (step st c)) = true.
Proof.
  intros Hinv. destruct c; try exact Hinv.
  - simpl. apply recordStatus_stack_capture, Hinv.
  - simpl. unfold Write.
    destruct (respLogger.statusRecorded (st_rl st)); simpl.
    + destruct (respLogger.captureErrorOutput (st_rl st)) eqn:Hc; simpl;
        split_cases; rewrite ?Hc; auto.
    + pose proof (recordStatus_stack_capture trace http_StatusOK (st_rl st) Hinv) as Hr.
      destruct (respLogger.captureErrorOutput
                  (recordStatus trace http_StatusOK (st_rl st))) eqn:Hc; simpl;
        split_cases; rewrite ?Hc; auto.
  - simpl. unfold Hijack. split_cases; exact Hinv.
Qed.

Lemma step_captureErrorOutput_mono c st :
  respLogger.captureErrorOutput (st_rl st) = true ->
  respLogger.captureErrorOutput (st_rl (step st c)) = true.
Proof.
  destruct c; intros Hc; try exact Hc.
  - crush_step.
  - simpl. unfold Write.
    destruct (respLogger.statusRecorded (st_rl st)); simpl.
    + rewrite Hc. split_cases. exact Hc.
    + assert (respLogger.captureErrorOutput
                (recordStatus trace http_StatusOK (st_rl st)) = true) as Hc'
        by (revert Hc; crush_step).
      rewrite Hc'. split_cases. exact Hc'.
  - crush_step.
Qed.

Lemma step_captureErrorOutput_set c st :
  respLogger.captureErrorOutput (st_rl st) = false ->
  respLogger.captureErrorOutput (st_rl (step st c)) = true ->
  respLogger.logStacktracePred (st_rl st)
    (respLogger.status (st_rl (step st c))) = true
  /\ respLogger.statusStack (st_rl (step st c)) <> "".
Proof.
  destruct c; intros Hc; simpl; try (rewrite Hc; discriminate).
  - rewrite recordStatus_status.
    destruct (respLogger.logStacktracePred (st_rl st) status) eqn:Hp.
    + intros _. split; [reflexivity | apply recordStatus_match, Hp].
    + destruct (recordStatus_no_match trace status (st_rl st) Hp) as [_ E].
      rewrite E, Hc. discriminate.
  - unfold Write.
    destruct (respLogger.statusRecorded (st_rl st)); simpl.
    + rewrite Hc. split_cases. rewrite Hc. discriminate.
    + destruct (respLogger.logStacktracePred (st_rl st) http_StatusOK) eqn:Hp.
      * destruct (recordStatus_match trace http_StatusOK (st_rl st) Hp) as [S E].
        rewrite E. split_cases. intros _.
        rewrite recordStatus_status. split; [exact Hp | exact S].
      * destruct (recordStatus_no_match trace http_StatusOK (st_rl st) Hp) as [_ E].
        rewrite E, Hc. split_cases. rewrite E, Hc. discriminate.
  - unfold Hijack. split_cases; rewrite Hc; discriminate.
Qed.

(** C3: on a fresh decorator a [Write] that comes before any
    [WriteHeader] records status 200; after [WriteHeader(403)] a [Write]
    leaves the status at 403; in general [Write] leaves an already
    recorded status as it is. *)
Theorem Write_default_status
    (req : Request) (w : ResponseWriter) (startTime : Time)
    (trace trace' b : string) (t : T) :
  let fresh := newRespLogger req w startTime in
  respLogger.status (Write trace b fresh t).1.1 = 200
  /\ respLogger.status
       (Write trace' b (WriteHeader trace 403 fresh t).1
                       (WriteHeader trace 403 fresh t).2).1.1 = 403
  /\ (forall rl,
         respLogger.statusRecorded rl = true ->
         respLogger.status (Write trace b rl t).1.1 = respLogger.status rl).
Proof.
  intros fresh. split; [|split].
  - apply Write_status_unrecorded. reflexivity.
  - rewrite Write_status_recorded.
    + apply recordStatus_status.
    + apply recordStatus_statusRecorded.
  - intros rl. apply Write_status_recorded.
Qed.

(** C1, as amended: the recorded status is the status of the most recent
    [WriteHeader] call, whatever was recorded before; the calls other
    than [WriteHeader] leave a recorded status as it is; and a fresh
    decorator that only saw [Write] calls has status 200. *)
Theorem status_follows_last_WriteHeader :
  (forall (pre post : list Call) (trace : string) (status : Z) st,
      Forall (fun c => is_WriteHeader c = false) post ->
      respLogger.status
        (st_rl (run (pre ++ CallWriteHeader trace status :: post) st)) = status)
  /\ (forall (calls : list Call) req w startTime t,
         Forall (fun c => is_WriteHeader c = false) calls ->
         Exists (fun c => is_Write c = true) calls ->
         respLogger.status
           (st_rl (run calls (freshState req w startTime t))) = 200).
Proof.
  split.
  - intros pre post trace status st Hpost.
    rewrite run_app, run_cons.
    set (st1 := step (run pre st) (CallWriteHeader trace status)).
    assert (respLogger.statusRecorded (st_rl st1) = true) as Hrec
      by apply recordStatus_statusRecorded.
    destruct (run_status_kept post st1 Hpost Hrec) as [_ E].
    rewrite E. apply recordStatus_status.
  - intros calls req w startTime t Hall Hex.
    destruct (run_only_writes calls (freshState req w startTime t) Hall)
      as [I1 I2]; [discriminate|].
    apply I1, I2, Hex.
Qed.

(** C2, as amended: after every sequence of calls on a fresh decorator a
    non-empty [statusStack] implies [captureErrorOutput]; recording a
    status that matches the predicate stores a non-empty stack and sets
    the flag; recording one that does not match clears the stack and
    leaves the flag as it was; the flag, once set, is never cleared; and
    at the call that sets it the recorded status matches the predicate
    and a stack is stored. *)
Theorem captureErrorOutput_follows_stack :
  (forall (calls : list Call) req w startTime t,
      let rl := st_rl (run calls (freshState req w startTime t)) in
      respLogger.statusStack rl <> "" ->
      respLogger.captureErrorOutput rl = true)
  /\ (forall trace status rl,
         respLogger.logStacktracePred rl status = true ->
         respLogger.statusStack (recordStatus trace status rl) <> ""
         /\ respLogger.captureErrorOutput (recordStatus trace status rl) = true)
  /\ (forall trace status rl,
         respLogger.logStacktracePred rl status = false ->
         respLogger.statusStack (recordStatus trace status rl) = ""
         /\ respLogger.captureErrorOutput (recordStatus trace status rl)
            = respLogger.captureErrorOutput rl)
  /\ (forall (calls : list Call) st,
         respLogger.captureErrorOutput (st_rl st) = true ->
         respLogger.captureErrorOutput (st_rl (run calls st)) = true)
  /\ (forall c st,
         respLogger.captureErrorOutput (st_rl st) = false ->
         respLogger.captureErrorOutput (st_rl (step st c)) = true ->
         respLogger.logStacktracePred (st_rl st)
           (respLogger.status (st_rl (step st c))) = true
         /\ respLogger.statusStack (st_rl (step st c)) <> "").
Proof.
  split; [|split; [|split; [|split]]].
  - intros calls req w startTime t.
    assert (forall st,
               (respLogger.statusStack (st_rl st) <> "" ->
                respLogger.captureErrorOutput (st_rl st) = true) ->
               respLogger.statusStack (st_rl (run calls st)) <> "" ->
               respLogger.captureErrorOutput (st_rl (run calls st)) = true) as Hgen.
    { induction calls as [|c cs IH]; intros st Hinv; [exact Hinv|].
      rewrite run_cons. apply IH. apply step_stack_capture, Hinv. }
    apply Hgen. simpl. congruence.
  - apply recordStatus_match.
  - apply recordStatus_no_match.
  - intros calls. induction calls as [|c cs IH]; intros st Hc; [exact Hc|].
    rewrite run_cons. apply IH, step_captureErrorOutput_mono, Hc.
  - apply step_captureErrorOutput_set.
Qed.

Lemma step_hijacked_mono c st :
  respLogger.hijacked (st_rl st) = true ->
  respLogger.hijacked (st_rl (step st c)) = true.
Proof. destruct c; intros Hh; crush_step. Qed.

Lemma run_hijacked_mono (calls : list Call) st :
  respLogger.hijacked (st_rl st) = true ->
  respLogger.hijacked (st_rl (run calls st)) = true.
Proof.
  revert st. induction calls as [|c cs IH]; intros st Hh; [exact Hh|].
  rewrite run_cons. apply IH, step_hijacked_mono, Hh.
Qed.

Lemma Hijack_hijacked rl t : respLogger.hijacked (Hijack rl t).1.1 = true.
Proof. unfold Hijack. split_cases; reflexivity. Qed.

Lemma step_addedKeyValuePairs c st :
  respLogger.addedKeyValuePairs (st_rl (step st c))
  = respLogger.addedKeyValuePairs (st_rl st) ++ addedPairs [c].
Proof.
  destruct c; unfold addedPairs; simpl; rewrite ?app_nil_r; try reflexivity;
    crush_step.
Qed.

Lemma run_addedKeyValuePairs (calls : list Call) st :
  respLogger.addedKeyValuePairs (st_rl (run calls st))
  = respLogger.addedKeyValuePairs (st_rl st) ++ addedPairs calls.
Proof.
  revert st. induction calls as [|c cs IH]; intros st.
  - unfold addedPairs. simpl. rewrite app_nil_r. reflexivity.
  - rewrite run_cons, IH, step_addedKeyValuePairs.
    rewrite <- app_assoc. f_equal.
    unfold addedPairs. simpl. rewrite app_nil_r. reflexivity.
Qed.

Lemma length_positive_false (s : string) :
  (0 <? String.length s)%nat = false <-> s = "".
Proof. destruct s; simpl; split; (reflexivity || discriminate). Qed.

(** The shape of the record of [Log], with the verb left to the
    collaborators. *)
Lemma Log_keysAndValues_shape (now : Time) rl :
  exists verb : string,
    Log_keysAndValues now rl
    = [ AString "verb"; AString verb;
        AString "URI"; AString (RequestURI (respLogger.req rl));
        AString "latency"; ADuration (time_Since now (respLogger.startTime rl));
        AString "userAgent"; AString (UserAgent (respLogger.req rl));
        AString "audit-ID";
        AString (request_GetAuditIDTruncated (respLogger.req rl));
        AString "srcIP"; AString (RemoteAddr (respLogger.req rl)) ]
      ++ respLogger.addedKeyValuePairs rl
      ++ (if respLogger.hijacked rl
          then [AString "hijacked"; ABool true]
          else [AString "resp"; AInt (respLogger.status rl)]
               ++ match respLogger.statusStack rl with
                  | "" => []
                  | stack => [AString "statusStack"; AString stack]
                  end
               ++ match respLogger.addedInfo rl with
                  | "" => []
                  | info => [AString "addedInfo"; AString info]
                  end).
Proof.
  eexists. unfold Log_keysAndValues.
  destruct (respLogger.hijacked rl).
  - rewrite <- app_assoc. reflexivity.
  - destruct (respLogger.statusStack rl) as [|a s];
      destruct (respLogger.addedInfo rl) as [|a' s'];
      cbn [String.length Nat.ltb Nat.leb];
      rewrite <- ?app_assoc; reflexivity.
Qed.

(** C8: the record emitted by [Log] starts with the pairs [verb], [URI],
    [latency], [userAgent], [audit-ID], [srcIP] in this order, goes on
    with the accumulated key/value pairs, which are the arguments of the
    [AddKeyValue] calls in the order of the calls, and ends with the pair
    [(hijacked, true)] when the connection was hijacked, and otherwise
    with [resp] and the status, then [statusStack] if the stack text is
    not empty, then [addedInfo] if the added info is not empty.  [Log]
    hands exactly this record to the sink, once. *)
Theorem Log_record_layout (now : Time) (rl : respLogger) (sink : list LogEntry) :
  (exists verb : string,
      Log_keysAndValues now rl
      = [ AString "verb"; AString verb;
          AString "URI"; AString (RequestURI (respLogger.req rl));
          AString "latency"; ADuration (time_Since now (respLogger.startTime rl));
          AString "userAgent"; AString (UserAgent (respLogger.req rl));
          AString "audit-ID";
          AString (request_GetAuditIDTruncated (respLogger.req rl));
          AString "srcIP"; AString (RemoteAddr (respLogger.req rl)) ]
        ++ respLogger.addedKeyValuePairs rl
        ++ (if respLogger.hijacked rl
            then [AString "hijacked"; ABool true]
            else [AString "resp"; AInt (respLogger.status rl)]
                 ++ match respLogger.statusStack rl with
                    | "" => []
                    | stack => [AString "statusStack"; AString stack]
                    end
                 ++ match respLogger.addedInfo rl with
                    | "" => []
                    | info => [AString "addedInfo"; AString info]
                    end))
  /\ Log now rl sink
     = sink ++ [ {| entry_depth := 1; entry_msg := "HTTP";
                    entry_keysAndValues := Log_keysAndValues now rl |} ]
  /\ (forall (calls : list Call) st,
         respLogger.addedKeyValuePairs (st_rl (run calls st))
         = respLogger.addedKeyValuePairs (st_rl st) ++ addedPairs calls)
  /\ (exists header : list Any,
         length header = 12%nat
         /\ Log_keysAndValues now (respLogger.set_hijacked true rl)
            = header ++ respLogger.addedKeyValuePairs rl
                     ++ [AString "hijacked"; ABool true]).
Proof.
  split; [apply Log_keysAndValues_shape | split; [reflexivity | split]].
  - apply run_addedKeyValuePairs.
  - destruct (Log_keysAndValues_shape now (respLogger.set_hijacked true rl))
      as [verb E].
    eexists. split; [|exact E]. reflexivity.
Qed.

(** C10: [Hijack] sets [hijacked] whatever the wrapped writer answers
    (a connection, an error, or no [Hijack] method at all); no later
    call clears it; so every [Log] that follows emits exactly the pairs
    [verb], [URI], [latency], [userAgent], [audit-ID], [srcIP], the
    key/value pairs and the pair [(hijacked, true)]: no [resp], no
    [statusStack], no [addedInfo]. *)
Theorem Hijack_is_final
    (rl : respLogger) (t : T) (sink : list LogEntry)
    (calls : list Call) (now : Time) :
  let st := {| st_rl := (Hijack rl t).1.1;
               st_transport := (Hijack rl t).1.2;
               st_sink := sink |} in
  let rl' := st_rl (run calls st) in
  respLogger.hijacked (Hijack rl t).1.1 = true
  /\ respLogger.hijacked rl' = true
  /\ exists verb : string,
       let record :=
         [ AString "verb"; AString verb;
           AString "URI"; AString (RequestURI (respLogger.req rl'));
           AString "latency";
           ADuration (time_Since now (respLogger.startTime rl'));
           AString "userAgent"; AString (UserAgent (respLogger.req rl'));
           AString "audit-ID";
           AString (request_GetAuditIDTruncated (respLogger.req rl'));
           AString "srcIP"; AString (RemoteAddr (respLogger.req rl')) ]
         ++ respLogger.addedKeyValuePairs rl'
         ++ [AString "hijacked"; ABool true] in
       Log_keysAndValues now rl' = record
       /\ st_sink (run (calls ++ [CallLog now]) st)
          = st_sink (run calls st)
            ++ [ {| entry_depth := 1; entry_msg := "HTTP";
                    entry_keysAndValues := record |} ].
Proof.
  intros st rl'.
  assert (respLogger.hijacked rl' = true) as Hh
    by (apply run_hijacked_mono, Hijack_hijacked).
  split; [apply Hijack_hijacked | split; [exact Hh|]].
  destruct (Log_keysAndValues_shape now rl') as [verb E].
  rewrite Hh in E.
  exists verb. cbv zeta. split; [exact E|].
  rewrite run_app. simpl. unfold Log. fold rl'. rewrite E. reflexivity.
Qed.

End MethodFacts.

(** ** Theorems on the request-scoped store and the middleware *)
Section PackageFacts.

Context {T : Type} {C : Collaborators T}.

Implicit Types (s : @World T) (req : Request) (w : ResponseWriter).

(** The request that [WithLogging] hands to the inner handler. *)
Lemma respLoggerFromRequest_attached req (rl : ptr) :
  respLoggerFromRequest
    (WithContext req
       (context_WithValue (Request_Context req) respLoggerContextKey
          (CtxRespLogger rl))) = Some rl.
Proof. reflexivity. Qed.

Lemma heap_after_install (h : list respLogger) (l : respLogger)
    (f : respLogger -> respLogger) :
  alter f (length h) (h ++ [l]) !! length h = Some (f l).
Proof.
  rewrite list_lookup_alter_eq.
  rewrite lookup_app_r by lia.
  replace (length h - length h)%nat with 0%nat by lia. reflexivity.
Qed.

Lemma w_preserved_by_step (c : Call) (st : @State T) :
  respLogger.w (st_rl (step st c)) = respLogger.w (st_rl st).
Proof.
  destruct c; simpl; try reflexivity.
  - unfold recordStatus. simpl.
    destruct (respLogger.logStacktracePred (st_rl st) status); reflexivity.
  - unfold Write, recordStatus. simpl.
    repeat match goal with
      | |- context [if ?b then _ else _] => destruct b eqn:?; simpl
      | |- context [inner_Write ?x ?b ?t] => destruct (inner_Write x b t); simpl
      end; reflexivity.
  - unfold Hijack. simpl.
    destruct (implements (respLogger.w (st_rl st)) Hijacker); simpl;
      [destruct (inner_Hijack (respLogger.w (st_rl st)) (st_transport st))|];
      reflexivity.
Qed.

Lemma w_preserved_by_run (calls : list Call) (st : @State T) :
  respLogger.w (st_rl (run calls st)) = respLogger.w (st_rl st).
Proof.
  revert st. induction calls as [|c cs IH]; intros st; [reflexivity|].
  change (run (c :: cs) st) with (run cs (step st c)).
  rewrite IH. apply w_preserved_by_step.
Qed.

(** What [WithLogging] does on a request without decorator: it
    allocates the decorator at a fresh address, installs [pred], and
    calls the handler with the wrapped writer and the request that
    carries the decorator; [Log] is deferred when klog runs at
    verbosity 3 or more. *)
Lemma WithLogging_installs (handler : @Handler T) (pred : StacktracePred) w req s :
  respLoggerFromRequest req = None ->
  exists (w' : ResponseWriter) (req' : Request) (s' : @World T),
    let rl := length (heap s) in
    respLoggerFromRequest req' = Some rl
    /\ (exists startTime,
           heap s' = heap s ++ [StacktraceWhen pred (newRespLogger req w startTime)])
    /\ verbosity s' = verbosity s
    /\ WithLogging handler pred w req s
       = (if klog_V_Enabled 3 s
          then run_deferred (Log_at rl) (handler w' req' s')
          else handler w' req' s').
Proof.
  intros Hnone. unfold WithLogging. rewrite Hnone. simpl.
  eexists _, _, _. split; [apply respLoggerFromRequest_attached|].
  split; [|split; [|reflexivity]]; [|reflexivity].
  eexists. simpl.
  rewrite <- (app_nil_r (alter _ _ _)).
  assert (forall (h : list respLogger) l f,
             alter f (length h) (h ++ [l]) = h ++ [f l]) as Halter.
  { intros h l f. induction h as [|x h IH]; simpl; [reflexivity|].
    f_equal. exact IH. }
  rewrite Halter, app_nil_r. reflexivity.
Qed.

(** C6: on a request whose context already carries a decorator,
    [WithLogging] panics with "multiple WithLogging calls!" and leaves
    the world as it was (no second decorator is allocated or attached);
    on a request without decorator it goes on to the handler, so that
    with a handler that returns it returns; and the doubly wrapped
    handler of [TestWithLogging] panics on a request without
    decorator. *)
Theorem WithLogging_double_install
    (handler : @Handler T) (pred pred' : StacktracePred) w req s :
  (forall old : ptr,
      respLoggerFromRequest req = Some old ->
      WithLogging handler pred w req s
      = Panicked "multiple WithLogging calls!" s)
  /\ (respLoggerFromRequest req = None ->
      (exists (w' : ResponseWriter) (req' : Request) (s' : @World T),
          respLoggerFromRequest req' = Some (length (heap s))
          /\ WithLogging handler pred w req s
             = (if klog_V_Enabled 3 s
                then run_deferred (Log_at (length (heap s))) (handler w' req' s')
                else handler w' req' s'))
      /\ (exists s' : @World T,
             WithLogging noopHandler pred w req s = Returned s')
      /\ (exists s' : @World T,
             WithLogging (WithLogging handler pred) pred' w req s
             = Panicked "multiple WithLogging calls!" s')).
Proof.
  split.
  - intros old Hold. unfold WithLogging. rewrite Hold. reflexivity.
  - intros Hnone. split; [|split].
    + destruct (WithLogging_installs handler pred w req s Hnone)
        as (w' & req' & s' & Hatt & _ & _ & E).
      exists w', req', s'. split; assumption.
    + unfold WithLogging. rewrite Hnone. simpl.
      destruct (klog_V_Enabled 3 _); [|eexists; reflexivity].
      unfold noopHandler, run_deferred, Log_at. simpl.
      rewrite heap_after_install. eexists. reflexivity.
    + destruct (WithLogging_installs (WithLogging handler pred) pred' w req s Hnone)
        as (w' & req' & s' & Hatt & [startTime Hheap] & _ & E).
      rewrite E.
      assert (WithLogging handler pred w' req' s'
              = Panicked "multiple WithLogging calls!" s') as Einner
        by (unfold WithLogging; rewrite Hatt; reflexivity).
      rewrite Einner.
      destruct (klog_V_Enabled 3 s); [|eexists; reflexivity].
      unfold run_deferred, Log_at. rewrite Hheap.
      rewrite lookup_app_r by lia.
      replace (length (heap s) - length (heap s))%nat with 0%nat by lia.
      simpl. eexists. reflexivity.
Qed.

(** C7: [Unlogged] returns the writer held by the attached decorator,
    which is the writer the decorator was built around: inside the
    handler run by [WithLogging] it is the writer [WithLogging] received,
    and no call on the decorator changes it.  Without attached decorator
    [Unlogged] returns its second argument. *)
Theorem Unlogged_returns_original
    (handler : @Handler T) (pred : StacktracePred) w req s :
  (forall (rl : ptr) (l : respLogger),
      respLoggerFromRequest req = Some rl ->
      heap s !! rl = Some l ->
      Unlogged req w s = Ok (respLogger.w l))
  /\ (respLoggerFromRequest req = None -> Unlogged req w s = Ok w)
  /\ (respLoggerFromRequest req = None ->
      exists (w' : ResponseWriter) (req' : Request) (s' : @World T),
        WithLogging handler pred w req s
        = (if klog_V_Enabled 3 s
           then run_deferred (Log_at (length (heap s))) (handler w' req' s')
           else handler w' req' s')
        /\ Unlogged req' w' s' = Ok w)
  /\ (forall (calls : list Call) (startTime : Time) (t : T),
         respLogger.w (st_rl (run calls (freshState req w startTime t))) = w).
Proof.
  split; [|split; [|split]].
  - intros rl l Hrl Hl. unfold Unlogged. rewrite Hrl, Hl. reflexivity.
  - intros Hnone. unfold Unlogged. rewrite Hnone. reflexivity.
  - intros Hnone. unfold WithLogging. rewrite Hnone. simpl.
    eexists _, _, _. split; [reflexivity|].
    unfold Unlogged. rewrite respLoggerFromRequest_attached. simpl.
    rewrite heap_after_install. reflexivity.
  - intros calls startTime t. rewrite w_preserved_by_run. reflexivity.
Qed.


End PackageFacts.

(** ** The definitions at work on the inputs of the unit tests *)

(** [TestLoggedStatus], first half. *)
Example TestLoggedStatus_write :
  let logger := newRespLogger exampleRequest FakeResponseWriter 0 in
  respLogger.status (Write (C := fakeCollaborators) "" "" logger tt).1.1
  = http_StatusOK.
Proof. reflexivity. Qed.

(** [TestRespLoggerWithDecoratedResponseWriter]. *)
Example TestRespLoggerWithDecoratedResponseWriter_shapes :
  (newLogged exampleRequest FakeResponseWriter (emptyWorld 0)).1.2
  = Decorator 0%nat
  /\ map (implements
            (newLogged exampleRequest FakeResponseWriterFlusherCloseNotifier
               (emptyWorld 0)).1.2)
         [CloseNotifier; Flusher; Hijacker] = [true; true; false]
  /\ map (implements
            (newLogged exampleRequest
               FakeResponseWriterFlusherCloseNotifierHijacker
               (emptyWorld 0)).1.2)
         [CloseNotifier; Flusher; Hijacker] = [true; true; true].
Proof. repeat split. Qed.

Lemma Write_default_status_witness :
  let rl :=
    (WriteHeader (C := fakeCollaborators) "" 404
       (newRespLogger exampleRequest FakeResponseWriter 0) tt).1 in
  respLogger.statusRecorded rl = true
  /\ respLogger.status (Write (C := fakeCollaborators) "" "body" rl tt).1.1
     = respLogger.status rl.
Proof.
  split; [reflexivity|].
  apply (proj2 (proj2 (@Write_default_status unit fakeCollaborators
                         exampleRequest FakeResponseWriter 0 "" "" "body" tt))).
  reflexivity.
Defined.

(** The claim C1 as written fails: after [WriteHeader(200)] has recorded
    200, a [WriteHeader(500)] changes the recorded status. *)
Lemma later_WriteHeader_changes_status :
  let fresh := freshState exampleRequest FakeResponseWriter 0 tt in
  let st1 := run (C := fakeCollaborators) [CallWriteHeader "" 200] fresh in
  let st2 := step (C := fakeCollaborators) st1 (CallWriteHeader "" 500) in
  respLogger.statusRecorded (st_rl st1) = true
  /\ respLogger.status (st_rl st1) = 200
  /\ respLogger.status (st_rl st2) <> respLogger.status (st_rl st1).
Proof. split; [reflexivity | split; [reflexivity | discriminate]]. Qed.

Lemma status_follows_last_WriteHeader_witness :
  respLogger.status
    (st_rl (run (C := fakeCollaborators)
              ([CallWrite "" "a"; CallWriteHeader "" 500]
               ++ CallWriteHeader "" 404 :: [CallWrite "" "b"; CallHijack])
              (freshState exampleRequest FakeResponseWriter 0 tt))) = 404
  /\ respLogger.status
       (st_rl (run (C := fakeCollaborators)
                 [CallAddKeyValue "k" (AInt 1); CallWrite "" "a"]
                 (freshState exampleRequest FakeResponseWriter 0 tt))) = 200.
Proof.
  split.
  - apply (proj1 (@status_follows_last_WriteHeader unit fakeCollaborators)).
    repeat constructor.
  - apply (proj2 (@status_follows_last_WriteHeader unit fakeCollaborators)).
    + repeat constructor.
    + apply Exists_cons_tl, Exists_cons_hd. reflexivity.
Defined.

(** The claim C2 as written fails: after [WriteHeader(500)] and
    [WriteHeader(200)] under the default predicate the flag is set and
    the stack text is empty. *)
Lemma captureErrorOutput_outlives_stack :
  let rl :=
    st_rl (run (C := fakeCollaborators)
             [CallWriteHeader "goroutine 1 [running]:" 500;
              CallWriteHeader "goroutine 1 [running]:" 200]
             (freshState exampleRequest FakeResponseWriter 0 tt)) in
  ~ (respLogger.captureErrorOutput rl = true
     <-> respLogger.statusStack rl <> "").
Proof.
  intros rl [Hflag _].
  assert (respLogger.captureErrorOutput rl = true) as E by (vm_compute; reflexivity).
  apply Hflag in E. apply E. vm_compute. reflexivity.
Qed.

Lemma captureErrorOutput_follows_stack_witness :
  let fresh := freshState exampleRequest FakeResponseWriter 0 tt in
  let rl0 := newRespLogger exampleRequest FakeResponseWriter 0 in
  respLogger.captureErrorOutput
    (st_rl (run (C := fakeCollaborators) [CallWriteHeader "main.f()" 503] fresh))
  = true
  /\ respLogger.captureErrorOutput (recordStatus "main.f()" 100 rl0) = true
  /\ respLogger.statusStack (recordStatus "main.f()" 404 rl0) = ""
  /\ respLogger.captureErrorOutput
       (st_rl (run (C := fakeCollaborators) [CallWriteHeader "" 200]
                 (step (C := fakeCollaborators) fresh (CallWriteHeader "" 500))))
     = true
  /\ respLogger.statusStack
       (st_rl (step (C := fakeCollaborators) fresh (CallWriteHeader "" 500)))
     <> "".
Proof.
  pose proof (@captureErrorOutput_follows_stack unit fakeCollaborators)
    as (H1 & H2 & H3 & H4 & H5).
  intros fresh rl0. split; [|split; [|split; [|split]]].
  - apply (H1 [CallWriteHeader "main.f()" 503]). vm_compute. discriminate.
  - apply (H2 "main.f()" 100 rl0). reflexivity.
  - apply (H3 "main.f()" 404 rl0). reflexivity.
  - apply (H4 [CallWriteHeader "" 200]). reflexivity.
  - apply (H5 (CallWriteHeader "" 500) fresh); reflexivity.
Defined.

Lemma WithLogging_double_install_witness :
  let req := WithContext exampleRequest
               [(respLoggerContextKey, CtxRespLogger 0%nat)] in
  WithLogging (C := fakeCollaborators) noopHandler DefaultStacktracePred
    FakeResponseWriter req (emptyWorld 3)
  = Panicked "multiple WithLogging calls!" (emptyWorld 3)
  /\ (exists s',
         WithLogging (C := fakeCollaborators) noopHandler DefaultStacktracePred
           FakeResponseWriter exampleRequest (emptyWorld 3) = Returned s')
  /\ (exists s',
         WithLogging (C := fakeCollaborators)
           (WithLogging (C := fakeCollaborators) noopHandler DefaultStacktracePred)
           DefaultStacktracePred FakeResponseWriter exampleRequest (emptyWorld 3)
         = Panicked "multiple WithLogging calls!" s').
Proof.
  intros req. split; [|split].
  - apply (proj1 (@WithLogging_double_install unit fakeCollaborators
                    noopHandler DefaultStacktracePred DefaultStacktracePred
                    FakeResponseWriter req (emptyWorld 3)) 0%nat).
    reflexivity.
  - apply (proj2 (@WithLogging_double_install unit fakeCollaborators
                    noopHandler DefaultStacktracePred DefaultStacktracePred
                    FakeResponseWriter exampleRequest (emptyWorld 3))).
    reflexivity.
  - apply (proj2 (@WithLogging_double_install unit fakeCollaborators
                    noopHandler DefaultStacktracePred DefaultStacktracePred
                    FakeResponseWriter exampleRequest (emptyWorld 3))).
    reflexivity.
Defined.

Lemma Unlogged_returns_original_witness :
  let origWriter := FakeResponseWriterFlusherCloseNotifierHijacker in
  let installed := newLogged exampleRequest origWriter (emptyWorld 0) in
  let req := WithContext exampleRequest
               [(respLoggerContextKey, CtxRespLogger installed.1.1)] in
  Unlogged req installed.1.2 installed.2 = Ok origWriter
  /\ Unlogged exampleRequest origWriter (emptyWorld 0) = Ok origWriter.
Proof.
  intros origWriter installed req. split.
  - apply (proj1 (@Unlogged_returns_original unit fakeCollaborators
                    noopHandler DefaultStacktracePred installed.1.2 req
                    installed.2) 0%nat
                 (newRespLogger exampleRequest origWriter 0));
      reflexivity.
  - apply (proj1 (proj2 (@Unlogged_returns_original unit fakeCollaborators
                           noopHandler DefaultStacktracePred origWriter
                           exampleRequest (emptyWorld 0)))).
    reflexivity.
Defined.



(** ** Further properties of the status predicates and of the decorator *)

(** Excluding the statuses of two lists excludes those of either. *)
Theorem StatusIsNot_app (l1 l2 : list Z) (s : Z) :
  StatusIsNot (l1 ++ l2) s = StatusIsNot l1 s && StatusIsNot l2 s.
Proof.
  destruct (StatusIsNot (l1 ++ l2) s) eqn:E; symmetry.
  - apply StatusIsNot_true_iff in E.
    apply andb_true_iff. split; apply StatusIsNot_true_iff;
      intros Hin; apply E, in_app_iff; auto.
  - apply andb_false_iff.
    destruct (StatusIsNot l1 s) eqn:E1; [|auto].
    destruct (StatusIsNot l2 s) eqn:E2; [|auto].
    apply StatusIsNot_true_iff in E1, E2.
    assert (StatusIsNot (l1 ++ l2) s = true) as H.
    { apply StatusIsNot_true_iff. intros Hin.
      apply in_app_iff in Hin as [Hin|Hin]; auto. }
    congruence.
Qed.

Lemma substring_prefix_length (n : nat) (s : string) :
  String.length (String.substring 0 n s) = Nat.min n (String.length s).
Proof.
  revert s. induction n as [|n IH]; intros s.
  - destruct s; reflexivity.
  - destruct s as [|a s]; [reflexivity|].
    simpl. rewrite IH. reflexivity.
Qed.

Lemma substring_prefix_all (n : nat) (s : string) :
  (String.length s <= n)%nat -> String.substring 0 n s = s.
Proof.
  revert s. induction n as [|n IH]; intros s Hlen.
  - destruct s; [reflexivity | simpl in Hlen; lia].
  - destruct s as [|a s]; [reflexivity|].
    simpl in *. rewrite IH by lia. reflexivity.
Qed.

Lemma substring_prefix_rest (n : nat) (s : string) :
  exists rest : string, s = String.substring 0 n s +:+ rest.
Proof.
  revert s. induction n as [|n IH]; intros s.
  - exists s. destruct s; reflexivity.
  - destruct s as [|a s]; [exists ""; reflexivity|].
    destruct (IH s) as [rest Hrest]. exists rest.
    change (String a s = String a (String.substring 0 n s +:+ rest)).
    rewrite <- Hrest. reflexivity.
Qed.

Section MoreMethodFacts.

Context {T : Type} {C : Collaborators T}.

Implicit Types (rl : respLogger) (t : T) (st : @State T) (c : Call).

Ltac split_tests :=
  repeat match goal with
    | |- context [if ?b then _ else _] => destruct b eqn:?; simpl in *
    | |- context [inner_Write ?x ?b ?t] => destruct (inner_Write x b t) eqn:?; simpl in *
    | |- context [inner_Hijack ?x ?t] => destruct (inner_Hijack x t) eqn:?; simpl in *
    end.

(** The stored stack text is a line feed followed by the first
    [50*1024] bytes of the caller's trace: the trace splits into a kept
    part, of [50*1024] bytes or of the whole length if that is less, and
    a dropped rest, and the stack text is the line feed and the kept
    part.  So it has at most [50*1024 + 1] bytes, and holds the whole
    trace when the trace fits the buffer. *)
Theorem recordStatus_stack_bounded (trace : string) (status : Z) rl :
  respLogger.logStacktracePred rl status = true ->
  (exists kept dropped : string,
      trace = kept +:+ dropped
      /\ String.length kept
         = Nat.min (Z.to_nat (50 * 1024)) (String.length trace)
      /\ respLogger.statusStack (recordStatus trace status rl) = LF +:+ kept)
  /\ (String.length (respLogger.statusStack (recordStatus trace status rl))
      <= S (Z.to_nat (50 * 1024)))%nat
  /\ ((String.length trace <= Z.to_nat (50 * 1024))%nat ->
      respLogger.statusStack (recordStatus trace status rl) = LF +:+ trace).
Proof.
  intros Hp.
  assert (respLogger.statusStack (recordStatus trace status rl)
          = LF +:+ runtime_Stack (Z.to_nat (50 * 1024)) trace) as E.
  { unfold recordStatus.
    change (respLogger.logStacktracePred
              (respLogger.set_statusRecorded true
                 (respLogger.set_status status rl)) status)
      with (respLogger.logStacktracePred rl status).
    rewrite Hp. reflexivity. }
  rewrite E. unfold runtime_Stack. split; [|split].
  - destruct (substring_prefix_rest (Z.to_nat (50 * 1024)) trace) as [rest Hrest].
    exists (String.substring 0 (Z.to_nat (50 * 1024)) trace), rest.
    split; [exact Hrest|]. split; [apply substring_prefix_length | reflexivity].
  - generalize (Z.to_nat (50 * 1024)). intros n.
    change (String.length (LF +:+ String.substring 0 n trace))
      with (S (String.length (String.substring 0 n trace))).
    rewrite substring_prefix_length. lia.
  - intros Hlen. rewrite substring_prefix_all by exact Hlen. reflexivity.
Qed.

Lemma step_statusRecorded c st :
  respLogger.statusRecorded (st_rl (step st c))
  = respLogger.statusRecorded (st_rl st) || records_status c.
Proof.
  destruct c; simpl; rewrite ?orb_false_r; try reflexivity.
  - rewrite recordStatus_statusRecorded, orb_true_r. reflexivity.
  - pose proof (Write_statusRecorded trace b (st_rl st) (st_transport st)) as E.
    destruct (Write trace b (st_rl st) (st_transport st)) as [[rl' t'] res].
    simpl in *. rewrite E, orb_true_r. reflexivity.
  - unfold Hijack. split_tests; reflexivity.
Qed.

(** A status counts as recorded exactly from the first [WriteHeader] or
    [Write] on: the flag after a sequence of calls is the flag before,
    or-ed with the presence of such a call. *)
Theorem statusRecorded_after_run (calls : list Call) st :
  respLogger.statusRecorded (st_rl (run calls st))
  = respLogger.statusRecorded (st_rl st) || existsb records_status calls.
Proof.
  revert st. induction calls as [|c cs IH]; intros st.
  - simpl. rewrite orb_false_r. reflexivity.
  - rewrite run_cons, IH, step_statusRecorded. simpl.
    rewrite orb_assoc. reflexivity.
Qed.

Lemma step_statusStack_kept c st :
  is_WriteHeader c = false ->
  respLogger.statusRecorded (st_rl st) = true ->
  respLogger.statusStack (st_rl (step st c)) = respLogger.statusStack (st_rl st).
Proof.
  destruct c; intros Hc Hrec; try discriminate; try reflexivity.
  - simpl. unfold Write. rewrite Hrec. simpl. split_tests; reflexivity.
  - simpl. unfold Hijack. split_tests; reflexivity.
Qed.

(** The stack text that [Log] will show is decided by the most recent
    [WriteHeader]: it is the captured stack when the predicate in force
    at that call accepts the status, and empty otherwise, whatever was
    captured before and whatever calls other than [WriteHeader]
    follow. *)
Theorem statusStack_follows_last_WriteHeader
    (pre post : list Call) (trace : string) (status : Z) st :
  Forall (fun c => is_WriteHeader c = false) post ->
  respLogger.statusStack
    (st_rl (run (pre ++ CallWriteHeader trace status :: post) st))
  = if respLogger.logStacktracePred (st_rl (run pre st)) status
    then LF +:+ runtime_Stack (Z.to_nat (50 * 1024)) trace
    else "".
Proof.
  intros Hpost. rewrite run_app, run_cons.
  set (st0 := run pre st).
  set (st1 := step st0 (CallWriteHeader trace status)).
  assert (respLogger.statusRecorded (st_rl st1) = true) as Hrec
    by apply recordStatus_statusRecorded.
  assert (forall (cs : list Call) st',
             Forall (fun c => is_WriteHeader c = false) cs ->
             respLogger.statusRecorded (st_rl st') = true ->
             respLogger.statusStack (st_rl (run cs st'))
             = respLogger.statusStack (st_rl st')) as Hkept.
  { intros cs st' Hall. revert st'.
    induction Hall as [|c cs Hc Hcs IH]; intros st' Hrec'; [reflexivity|].
    rewrite run_cons, IH by (apply step_statusRecorded_mono, Hrec').
    apply step_statusStack_kept; assumption. }
  rewrite (Hkept post st1 Hpost Hrec).
  subst st1. simpl. unfold recordStatus.
  change (respLogger.logStacktracePred
            (respLogger.set_statusRecorded true
               (respLogger.set_status status (st_rl st0))) status)
    with (respLogger.logStacktracePred (st_rl st0) status).
  destruct (respLogger.logStacktracePred (st_rl st0) status); reflexivity.
Qed.

Lemma step_transport c st :
  st_transport (step st c)
  = forwarded (respLogger.w (st_rl st)) (st_transport st) c.
Proof.
  destruct c; simpl; try reflexivity.
  - unfold recordStatus. simpl.
    destruct (respLogger.logStacktracePred (st_rl st) status); reflexivity.
  - unfold Write, recordStatus. simpl.
    repeat match goal with
      | |- context [if ?b then _ else _] => destruct b eqn:?; simpl
      end;
      destruct (inner_Write (respLogger.w (st_rl st)) b (st_transport st));
      reflexivity.
  - unfold Hijack. simpl.
    destruct (implements (respLogger.w (st_rl st)) Hijacker); simpl;
      [destruct (inner_Hijack (respLogger.w (st_rl st)) (st_transport st))|];
      reflexivity.
Qed.

(** The decoration is transparent for the wrapped writer: it receives
    the [WriteHeader], [Write], [Header] and [Hijack] calls made on the
    decorator, in their order and with their arguments ([Hijack] only
    when it has the method), and nothing for [Addf], [AddKeyValue],
    [StacktraceWhen], [Log] and [Unwrap], whatever the decorator
    records meanwhile; [Write] and [Header] hand back what the wrapped
    writer returned. *)
Theorem wrapped_writer_sees_same_calls (calls : list Call) st :
  st_transport (run calls st)
  = foldl (forwarded (respLogger.w (st_rl st))) (st_transport st) calls
  /\ (forall c,
         is_WriteHeader c = false -> is_Write c = false ->
         c <> CallHijack -> c <> CallHeader ->
         st_transport (step st c) = st_transport st)
  /\ (forall trace b rl t,
         (Write trace b rl t).2 = (inner_Write (respLogger.w rl) b t).2)
  /\ (forall rl t, (Header rl t).2 = (inner_Header (respLogger.w rl) t).2).
Proof.
  split; [|split; [|split; [|reflexivity]]].
  - revert st. induction calls as [|c cs IH]; intros st; [reflexivity|].
    rewrite run_cons, IH, w_preserved_by_step, step_transport. reflexivity.
  - intros c H1 H2 H3 H4. destruct c; try discriminate; try reflexivity;
      congruence.
  - intros trace b rl t. unfold Write, recordStatus. simpl.
    repeat match goal with
      | |- context [if ?b then _ else _] => destruct b eqn:?; simpl
      end;
      destruct (inner_Write (respLogger.w rl) b t); reflexivity.
Qed.

Lemma step_sink c st :
  st_sink (step st c)
  = st_sink st
    ++ match c with
       | CallLog now =>
           [ {| entry_depth := 1; entry_msg := "HTTP";
                entry_keysAndValues := Log_keysAndValues now (st_rl st) |} ]
       | _ => []
       end.
Proof.
  destruct c; simpl; rewrite ?app_nil_r; try reflexivity.
  - destruct (Write trace b (st_rl st) (st_transport st)) as [[rl' t'] res].
    reflexivity.
  - destruct (Hijack (st_rl st) (st_transport st)) as [[rl' t'] res].
    reflexivity.
Qed.

(** Only [Log] writes to the sink, and it writes one entry per call:
    what the sink held stays in front, and the number of entries added
    by a sequence of calls is the number of its [Log] calls.  Nothing
    keeps a second [Log] from emitting a second entry. *)
Theorem sink_grows_by_Log_calls (calls : list Call) st :
  exists entries : list LogEntry,
    st_sink (run calls st) = st_sink st ++ entries
    /\ length entries = length (List.filter is_Log calls)
    /\ Forall (fun e => entry_msg e = "HTTP" /\ entry_depth e = 1) entries.
Proof.
  revert st. induction calls as [|c cs IH]; intros st.
  - exists []. simpl. rewrite app_nil_r. auto.
  - rewrite run_cons. destruct (IH (step st c)) as (es & E & Hlen & Hall).
    rewrite step_sink in E. rewrite <- app_assoc in E.
    eexists. split; [exact E|]. split.
    + rewrite length_app, Hlen. destruct c; reflexivity.
    + apply Forall_app. split; [|exact Hall].
      destruct c; constructor; auto.
Qed.

Lemma addedPairs_even (calls : list Call) :
  Nat.even (length (addedPairs calls)) = true.
Proof.
  unfold addedPairs. induction calls as [|c cs IH]; [reflexivity|].
  simpl. rewrite length_app.
  destruct c; simpl; exact IH.
Qed.

Lemma even_add_even (a b : nat) :
  Nat.even a = true -> Nat.even (a + b) = Nat.even b.
Proof. intros Ha. rewrite Nat.even_add, Ha. destruct (Nat.even b); reflexivity. Qed.

(** The record of [Log] is a well-formed key/value list: on a decorator
    built by [newLoggedWithStartTime] and used through its methods it
    always has an even number of elements. *)
Theorem Log_record_is_paired
    (calls : list Call) (req : Request) (w : ResponseWriter)
    (startTime now : Time) (t : T) :
  Nat.even
    (length (Log_keysAndValues now
               (st_rl (run calls (freshState req w startTime t))))) = true.
Proof.
  destruct (Log_keysAndValues_shape now
              (st_rl (run calls (freshState req w startTime t)))) as [verb E].
  rewrite E. rewrite run_addedKeyValuePairs. simpl app at 2.
  rewrite !length_app.
  change (length [AString "verb"; AString verb; AString "URI";
                  AString (RequestURI (respLogger.req _)); AString "latency";
                  ADuration _; AString "userAgent"; AString _;
                  AString "audit-ID"; AString _; AString "srcIP"; AString _])
    with 12%nat.
  rewrite (even_add_even 12) by reflexivity.
  rewrite even_add_even by apply addedPairs_even.
  destruct (respLogger.hijacked _); [reflexivity|].
  destruct (respLogger.statusStack _); destruct (respLogger.addedInfo _);
    reflexivity.
Qed.

(** [Write] echoes the body into the added info exactly when
    [captureErrorOutput] is set: then it appends a line feed and the
    formatted body, and otherwise, on a decorator with a recorded
    status, it leaves the added info as it is. *)
Theorem Write_echoes_error_output (trace b : string) rl t :
  respLogger.statusRecorded rl = true ->
  respLogger.addedInfo (Write trace b rl t).1.1
  = if respLogger.captureErrorOutput rl
    then (respLogger.addedInfo rl +:+ LF)
         +:+ fmt_Sprintf ("logging error output: %q" +:+ LF) [AString b]
    else respLogger.addedInfo rl.
Proof.
  intros Hrec. unfold Write. rewrite Hrec. simpl.
  destruct (respLogger.captureErrorOutput rl); simpl;
    destruct (inner_Write (respLogger.w rl) b t); reflexivity.
Qed.

Lemma step_req_startTime c st :
  respLogger.req (st_rl (step st c)) = respLogger.req (st_rl st)
  /\ respLogger.startTime (st_rl (step st c)) = respLogger.startTime (st_rl st).
Proof.
  destruct c; simpl; try (split; reflexivity).
  - unfold recordStatus. simpl.
    destruct (respLogger.logStacktracePred (st_rl st) status); split; reflexivity.
  - unfold Write, recordStatus. simpl.
    repeat match goal with
      | |- context [if ?b then _ else _] => destruct b eqn:?; simpl
      end;
      destruct (inner_Write _ b (st_transport st)); split; reflexivity.
  - unfold Hijack. simpl.
    destruct (implements (respLogger.w (st_rl st)) Hijacker); simpl;
      [destruct (inner_Hijack _ (st_transport st))|]; split; reflexivity.
Qed.

Lemma run_req_startTime (calls : list Call) st :
  respLogger.req (st_rl (run calls st)) = respLogger.req (st_rl st)
  /\ respLogger.startTime (st_rl (run calls st)) = respLogger.startTime (st_rl st).
Proof.
  revert st. induction calls as [|c cs IH]; intros st; [split; reflexivity|].
  rewrite run_cons. destruct (IH (step st c)) as [E1 E2].
  destruct (step_req_startTime c st) as [S1 S2].
  rewrite E1, E2. split; assumption.
Qed.

Lemma step_quiet_clean c st :
  is_quiet c = true ->
  respLogger.logStacktracePred (st_rl st) = DefaultStacktracePred ->
  respLogger.hijacked (st_rl st) = false ->
  respLogger.captureErrorOutput (st_rl st) = false ->
  respLogger.statusStack (st_rl st) = "" ->
  respLogger.addedInfo (st_rl st) = "" ->
  (respLogger.statusRecorded (st_rl st) = true ->
   respLogger.status (st_rl st) = http_StatusOK) ->
  let rl' := st_rl (step st c) in
  respLogger.logStacktracePred rl' = DefaultStacktracePred
  /\ respLogger.hijacked rl' = false
  /\ respLogger.captureErrorOutput rl' = false
  /\ respLogger.statusStack rl' = ""
  /\ respLogger.addedInfo rl' = ""
  /\ (respLogger.statusRecorded rl' = true ->
      respLogger.status rl' = http_StatusOK).
Proof.
  destruct c; try discriminate; intros _ Hp Hh Hc Hs Hi Hst; simpl;
    try (repeat split; assumption).
  unfold Write, recordStatus. simpl.
  destruct (respLogger.statusRecorded (st_rl st)) eqn:Hrec; simpl.
  - rewrite Hc.
    destruct (inner_Write (respLogger.w (st_rl st)) b (st_transport st)).
    simpl. rewrite Hrec. auto 10.
  - rewrite Hp. simpl. rewrite Hc.
    destruct (inner_Write _ b (st_transport st)). simpl. auto 10.
Qed.

(** A handler that writes a body through a fresh decorator, with or
    without [AddKeyValue], [Log], [Header] and [Unwrap] calls in
    between, gets the plain record: under the default predicate the
    implicit 200 is no error, so nothing is echoed and no stack is
    taken, and [Log] emits the pairs [verb], [URI], [latency],
    [userAgent], [audit-ID], [srcIP] of the request, the added
    key/value pairs and [resp = 200], and nothing else. *)
Theorem only_writes_log_plain_200
    (calls : list Call) (req : Request) (w : ResponseWriter)
    (startTime now : Time) (t : T) :
  Forall (fun c => is_quiet c = true) calls ->
  Exists (fun c => is_Write c = true) calls ->
  exists verb : string,
    Log_keysAndValues now (st_rl (run calls (freshState req w startTime t)))
    = [ AString "verb"; AString verb;
        AString "URI"; AString (RequestURI req);
        AString "latency"; ADuration (time_Since now startTime);
        AString "userAgent"; AString (UserAgent req);
        AString "audit-ID"; AString (request_GetAuditIDTruncated req);
        AString "srcIP"; AString (RemoteAddr req) ]
      ++ addedPairs calls
      ++ [AString "resp"; AInt 200].
Proof.
  intros Hall Hex.
  set (fresh := freshState req w startTime t).
  assert (forall (cs : list Call) st,
             Forall (fun c => is_quiet c = true) cs ->
             respLogger.logStacktracePred (st_rl st) = DefaultStacktracePred ->
             respLogger.hijacked (st_rl st) = false ->
             respLogger.captureErrorOutput (st_rl st) = false ->
             respLogger.statusStack (st_rl st) = "" ->
             respLogger.addedInfo (st_rl st) = "" ->
             (respLogger.statusRecorded (st_rl st) = true ->
              respLogger.status (st_rl st) = http_StatusOK) ->
             respLogger.hijacked (st_rl (run cs st)) = false
             /\ respLogger.statusStack (st_rl (run cs st)) = ""
             /\ respLogger.addedInfo (st_rl (run cs st)) = ""
             /\ (respLogger.statusRecorded (st_rl (run cs st)) = true ->
                 respLogger.status (st_rl (run cs st)) = http_StatusOK)) as Hgen.
  { intros cs st' Hcs. revert st'.
    induction Hcs as [|c cs Hc Hcs IH]; intros st' Hp Hh Hcap Hs Hi Hst;
      [simpl; auto|].
    rewrite run_cons.
    destruct (step_quiet_clean c st' Hc Hp Hh Hcap Hs Hi Hst)
      as (Hp' & Hh' & Hcap' & Hs' & Hi' & Hst').
    apply IH; assumption. }
  destruct (Hgen calls fresh Hall) as (Hh & Hs & Hi & Hst);
    try reflexivity; [discriminate|].
  assert (respLogger.statusRecorded (st_rl (run calls fresh)) = true) as Hrec.
  { rewrite statusRecorded_after_run. apply orb_true_iff. right.
    apply existsb_exists. apply Exists_exists in Hex as (c & Hin & Hc).
    exists c. split; [apply list_elem_of_In; exact Hin|].
    unfold records_status. rewrite Hc. apply orb_true_r. }
  specialize (Hst Hrec).
  destruct (Log_keysAndValues_shape now (st_rl (run calls fresh))) as [verb E].
  destruct (run_req_startTime calls fresh) as [Ereq Estart].
  rewrite Hh, Hs, Hi, Hst, Ereq, Estart in E.
  rewrite run_addedKeyValuePairs in E.
  exists verb. rewrite E. reflexivity.
Qed.

(** [Hijack] on a decorator whose wrapped writer has no [Hijack] method
    panics without calling the wrapped writer, and still leaves the
    decorator marked: a later [Log] reports [hijacked] although no
    connection was taken over, in a record made of the six leading
    pairs, the key/value pairs and [(hijacked, true)], without status. *)
Theorem Hijack_without_Hijacker (now : Time) rl t :
  implements (respLogger.w rl) Hijacker = false ->
  (exists v : string, (Hijack rl t).2 = Panic v)
  /\ (Hijack rl t).1.2 = t
  /\ exists verb : string,
       Log_keysAndValues now (Hijack rl t).1.1
       = [ AString "verb"; AString verb;
           AString "URI"; AString (RequestURI (respLogger.req rl));
           AString "latency";
           ADuration (time_Since now (respLogger.startTime rl));
           AString "userAgent"; AString (UserAgent (respLogger.req rl));
           AString "audit-ID";
           AString (request_GetAuditIDTruncated (respLogger.req rl));
           AString "srcIP"; AString (RemoteAddr (respLogger.req rl)) ]
         ++ respLogger.addedKeyValuePairs rl
         ++ [AString "hijacked"; ABool true].
Proof.
  intros Himp. unfold Hijack. simpl. rewrite Himp. simpl.
  split; [eexists; reflexivity | split; [reflexivity|]].
  destruct (Log_keysAndValues_shape now (respLogger.set_hijacked true rl))
    as [verb E].
  exists verb. exact E.
Qed.

End MoreMethodFacts.

(** ** Further properties of the request-scoped store and the middleware *)
Section MorePackageFacts.

Context {T : Type} {C : Collaborators T}.

Implicit Types (s : @World T) (req : Request) (w : ResponseWriter).

Lemma respLoggerFromContext_skip (kv : ctxKey * ctxValue) (ctx : context_Context) :
  kv.1 <> respLoggerContextKey ->
  respLoggerFromContext (kv :: ctx) = respLoggerFromContext ctx.
Proof.
  destruct kv as [[|k] v]; intros Hk; [contradiction|]. reflexivity.
Qed.

(** Values that other packages put into the context never hide the
    decorator: a context derived from a decorated one by bindings of
    other keys still yields the same decorator, so [WithLogging] still
    refuses a request that carries it. *)
Theorem foreign_context_values_keep_decorator
    (foreign ctx : context_Context) (handler : @Handler T)
    (pred : StacktracePred) w req s :
  Forall (fun kv => kv.1 <> respLoggerContextKey) foreign ->
  respLoggerFromContext (foreign ++ ctx) = respLoggerFromContext ctx
  /\ (is_Some (respLoggerFromContext ctx) ->
      WithLogging handler pred w (WithContext req (foreign ++ ctx)) s
      = Panicked "multiple WithLogging calls!" s).
Proof.
  intros Hall.
  assert (respLoggerFromContext (foreign ++ ctx) = respLoggerFromContext ctx) as E.
  { induction Hall as [|kv kvs Hkv _ IH]; [reflexivity|].
    simpl app. rewrite respLoggerFromContext_skip by exact Hkv. exact IH. }
  split; [exact E|].
  intros [rl Hrl]. unfold WithLogging, respLoggerFromRequest. simpl.
  rewrite E, Hrl. reflexivity.
Qed.

Lemma list_alter_other {A : Type} (f : A -> A) (i j : nat) (l : list A) :
  i <> j -> alter f i l !! j = l !! j.
Proof. intros Hne. apply list_lookup_alter_ne. exact Hne. Qed.

Lemma list_alter_at {A : Type} (f : A -> A) (i : nat) (l : list A) (x : A) :
  l !! i = Some x -> alter f i l !! i = Some (f x).
Proof. intros Hx. rewrite list_lookup_alter_eq, Hx. reflexivity. Qed.

(** The context-addressed [AddKeyValue] and [AddInfof] do nothing on a
    context without decorator; on a context with one they change the
    struct behind the stored pointer and no other, so that the pair
    shows up, after the pairs added before, in the record that [Log]
    emits through the same pointer. *)
Theorem context_annotations_reach_decorator
    (ctx : context_Context) (key : string) (value : Any)
    (format : string) (data : list Any) s :
  (respLoggerFromContext ctx = None ->
   AddKeyValueCtx ctx key value s = s /\ AddInfof ctx format data s = s)
  /\ (forall (rl : ptr) (l : respLogger),
         respLoggerFromContext ctx = Some rl ->
         heap s !! rl = Some l ->
         heap (AddKeyValueCtx ctx key value s) !! rl = Some (AddKeyValue key value l)
         /\ heap (AddInfof ctx format data s) !! rl = Some (Addf format data l)
         /\ (forall p : ptr,
                p <> rl ->
                heap (AddKeyValueCtx ctx key value s) !! p = heap s !! p
                /\ heap (AddInfof ctx format data s) !! p = heap s !! p)
         /\ exists header tail : list Any,
              length header = 12%nat
              /\ Log_at rl (AddKeyValueCtx ctx key value s)
                 = Returned
                     (set_sink
                        (sink s
                         ++ [ {| entry_depth := 1; entry_msg := "HTTP";
                                 entry_keysAndValues :=
                                   header
                                   ++ (respLogger.addedKeyValuePairs l
                                       ++ [AString key; value])
                                   ++ tail |} ])
                        (AddKeyValueCtx ctx key value s))).
Proof.
  split.
  - intros Hnone. unfold AddKeyValueCtx, AddInfof. rewrite Hnone. auto.
  - intros rl l Hrl Hl. unfold AddKeyValueCtx, AddInfof. rewrite Hrl.
    split; [|split; [|split]].
    + simpl. apply list_alter_at, Hl.
    + simpl. apply list_alter_at, Hl.
    + intros p Hp. simpl. split; apply list_alter_other; congruence.
    + unfold Log_at. simpl.
      rewrite (list_alter_at _ _ _ _ Hl).
      destruct (Log_keysAndValues_shape (clock s) (AddKeyValue key value l))
        as [verb E].
      unfold Log. simpl. rewrite E.
      eexists _, _. split; [|reflexivity]. reflexivity.
Qed.

(** What [WithLogging] passes to the inner handler on a request without
    decorator, spelled out. *)
Lemma WithLogging_unfold (handler : @Handler T) (pred : StacktracePred) w req s :
  respLoggerFromRequest req = None ->
  let startTime :=
    match request_ReceivedTimestampFrom (Request_Context req) with
    | Some receivedTimestamp => receivedTimestamp
    | None => clock s
    end in
  let rl := length (heap s) in
  let s' :=
    set_heap (heap s ++ [StacktraceWhen pred (newRespLogger req w startTime)]) s in
  let req' :=
    WithContext req
      (context_WithValue (Request_Context req) respLoggerContextKey
         (CtxRespLogger rl)) in
  let w' := WrapForHTTP1Or2 rl (newRespLogger req w startTime) in
  WithLogging handler pred w req s
  = (if klog_V_Enabled 3 s
     then run_deferred (Log_at rl) (handler w' req' s')
     else handler w' req' s').
Proof.
  intros Hnone. unfold WithLogging. rewrite Hnone. simpl.
  assert (forall (h : list respLogger) l f,
             alter f (length h) (h ++ [l]) = h ++ [f l]) as Halter.
  { intros h l f. induction h as [|x h IH]; simpl; [reflexivity|].
    f_equal. exact IH. }
  rewrite Halter. reflexivity.
Qed.

(** [WithLogging] logs once and does not swallow a failure: at klog
    verbosity 3 or more, when the inner handler ends (by returning or by
    panicking) in a world where the decorator is still allocated, the
    outcome is the handler's own (the same panic value) with exactly one
    record appended to the sink, built from the decorator as the handler
    left it; below verbosity 3 the outcome is the handler's, with
    nothing logged. *)
Theorem WithLogging_logs_once_and_rethrows
    (handler : @Handler T) (pred : StacktracePred) w req s :
  respLoggerFromRequest req = None ->
  let startTime :=
    match request_ReceivedTimestampFrom (Request_Context req) with
    | Some receivedTimestamp => receivedTimestamp
    | None => clock s
    end in
  let rl := length (heap s) in
  let s' :=
    set_heap (heap s ++ [StacktraceWhen pred (newRespLogger req w startTime)]) s in
  let req' :=
    WithContext req
      (context_WithValue (Request_Context req) respLoggerContextKey
         (CtxRespLogger rl)) in
  let w' := WrapForHTTP1Or2 rl (newRespLogger req w startTime) in
  (verbosity s < 3 ->
   WithLogging handler pred w req s = handler w' req' s')
  /\ (3 <= verbosity s ->
      forall (s2 : @World T) (l : respLogger),
        heap s2 !! rl = Some l ->
        let logged :=
          set_sink
            (sink s2 ++ [ {| entry_depth := 1; entry_msg := "HTTP";
                             entry_keysAndValues :=
                               Log_keysAndValues (clock s2) l |} ]) s2 in
        (handler w' req' s' = Returned s2 ->
         WithLogging handler pred w req s = Returned logged)
        /\ (forall v : string,
               handler w' req' s' = Panicked v s2 ->
               WithLogging handler pred w req s = Panicked v logged)).
Proof.
  intros Hnone. cbv zeta.
  pose proof (WithLogging_unfold handler pred w req s Hnone) as E.
  cbv zeta in E.
  split.
  - intros Hv. rewrite E. unfold klog_V_Enabled.
    destruct (3 <=? verbosity s) eqn:Hle; [apply Z.leb_le in Hle; lia|].
    reflexivity.
  - intros Hv s2 l Hl. rewrite E. unfold klog_V_Enabled.
    destruct (3 <=? verbosity s) eqn:Hle; [|apply Z.leb_gt in Hle; lia].
    split.
    + intros Hr. rewrite Hr. unfold run_deferred. cbv beta iota.
      unfold Log_at, ptr. rewrite Hl. reflexivity.
    + intros v Hr. rewrite Hr. unfold run_deferred. cbv beta iota.
      unfold Log_at, ptr. rewrite Hl. reflexivity.
Qed.

(** Inside the handler that [WithLogging] runs, [LogOf] is the installed
    decorator, which holds the given predicate and the writer and
    request that [WithLogging] received; outside, on the undecorated
    request, it is the pass-through logger. *)
Theorem LogOf_inside_WithLogging
    (handler : @Handler T) (pred : StacktracePred) w req s :
  respLoggerFromRequest req = None ->
  LogOf req w = PassthroughLogger
  /\ exists (w' : ResponseWriter) (req' : Request) (s' : @World T)
            (l : respLogger),
       WithLogging handler pred w req s
       = (if klog_V_Enabled 3 s
          then run_deferred (Log_at (length (heap s))) (handler w' req' s')
          else handler w' req' s')
       /\ LogOf req' w' = RespLoggerLogger (length (heap s))
       /\ heap s' !! length (heap s) = Some l
       /\ respLogger.logStacktracePred l = pred
       /\ respLogger.w l = w
       /\ respLogger.req l = req
       /\ respLogger.statusRecorded l = false.
Proof.
  intros Hnone. split; [unfold LogOf; rewrite Hnone; reflexivity|].
  pose proof (WithLogging_unfold handler pred w req s Hnone) as E.
  cbv zeta in E.
  eexists _, _, _, _. split; [exact E|].
  split; [reflexivity|]. split.
  - simpl. rewrite lookup_app_r by lia.
    replace (length (heap s) - length (heap s))%nat with 0%nat by lia.
    reflexivity.
  - repeat split.
Qed.


End MorePackageFacts.

Section MoreInvariants.

Context {T : Type} {C : Collaborators T}.

Implicit Types (rl : respLogger) (t : T) (st : @State T) (c : Call).

Lemma string_app_assoc (a b c : string) : (a +:+ b) +:+ c = a +:+ (b +:+ c).
Proof.
  induction a as [|x a IH]; [reflexivity|].
  change (String x ((a +:+ b) +:+ c) = String x (a +:+ (b +:+ c))).
  rewrite IH. reflexivity.
Qed.

Lemma string_app_empty (a : string) : a +:+ "" = a.
Proof.
  induction a as [|x a IH]; [reflexivity|].
  change (String x (a +:+ "") = String x a).
  rewrite IH. reflexivity.
Qed.

Lemma step_addedInfo_grows c st :
  exists suffix : string,
    respLogger.addedInfo (st_rl (step st c))
    = respLogger.addedInfo (st_rl st) +:+ suffix.
Proof.
  destruct c; simpl;
    try (exists ""; rewrite string_app_empty; reflexivity).
  - exists "". rewrite string_app_empty. unfold recordStatus. simpl.
    destruct (respLogger.logStacktracePred (st_rl st) status); reflexivity.
  - unfold Write, recordStatus. simpl.
    destruct (negb (respLogger.statusRecorded (st_rl st))); simpl;
      [destruct (respLogger.logStacktracePred (st_rl st) http_StatusOK); simpl|];
      try destruct (respLogger.captureErrorOutput (st_rl st)); simpl;
      destruct (inner_Write _ b (st_transport st)); simpl;
      first [ exists ""; rewrite string_app_empty; reflexivity
            | eexists; rewrite string_app_assoc; reflexivity ].
  - exists "". rewrite string_app_empty. unfold Hijack. simpl.
    destruct (implements (respLogger.w (st_rl st)) Hijacker); simpl;
      [destruct (inner_Hijack _ (st_transport st))|]; reflexivity.
  - eexists. unfold Addf. simpl. rewrite string_app_assoc. reflexivity.
Qed.

(** The added info is append-only: after any sequence of calls it is
    what it was, followed by what the calls added; no call truncates or
    resets it. *)
Theorem addedInfo_is_append_only (calls : list Call) st :
  exists suffix : string,
    respLogger.addedInfo (st_rl (run calls st))
    = respLogger.addedInfo (st_rl st) +:+ suffix.
Proof.
  revert st. induction calls as [|c cs IH]; intros st.
  - exists "". rewrite string_app_empty. reflexivity.
  - rewrite run_cons. destruct (IH (step st c)) as [x Ex].
    destruct (step_addedInfo_grows c st) as [y Ey].
    exists (y +:+ x). rewrite Ex, Ey. apply string_app_assoc.
Qed.

Lemma step_unrecorded c st :
  records_status c = false ->
  let rl := st_rl st in
  let rl' := st_rl (step st c) in
  respLogger.status rl' = respLogger.status rl
  /\ respLogger.statusStack rl' = respLogger.statusStack rl
  /\ respLogger.captureErrorOutput rl' = respLogger.captureErrorOutput rl.
Proof.
  destruct c; intros Hc; try discriminate; simpl; auto.
  unfold Hijack. simpl.
  destruct (implements (respLogger.w (st_rl st)) Hijacker); simpl;
    [destruct (inner_Hijack _ (st_transport st))|]; auto.
Qed.

(** A handler that never calls [WriteHeader] or [Write] leaves the
    status unrecorded: the decorator does not supply the 200 that the
    HTTP server would send, and [Log], unless the connection was
    hijacked, reports [resp = 0], without stack. *)
Theorem no_write_logs_status_zero
    (calls : list Call) (req : Request) (w : ResponseWriter)
    (startTime now : Time) (t : T) :
  Forall (fun c => records_status c = false) calls ->
  let rl := st_rl (run calls (freshState req w startTime t)) in
  respLogger.statusRecorded rl = false
  /\ respLogger.status rl = 0
  /\ (respLogger.hijacked rl = false ->
      exists (header : list Any),
        length header = 12%nat
        /\ Log_keysAndValues now rl
           = header ++ addedPairs calls ++ [AString "resp"; AInt 0]
             ++ match respLogger.addedInfo rl with
                | "" => []
                | info => [AString "addedInfo"; AString info]
                end).
Proof.
  intros Hall. cbv zeta.
  set (fresh := freshState req w startTime t).
  assert (forall (cs : list Call) st,
             Forall (fun c => records_status c = false) cs ->
             respLogger.status (st_rl (run cs st)) = respLogger.status (st_rl st)
             /\ respLogger.statusStack (st_rl (run cs st))
                = respLogger.statusStack (st_rl st)) as Hgen.
  { intros cs st Hcs. revert st.
    induction Hcs as [|c cs Hc _ IH]; intros st; [auto|].
    rewrite run_cons. destruct (IH (step st c)) as [E1 E2].
    destruct (step_unrecorded c st Hc) as (S1 & S2 & _).
    rewrite E1, E2. auto. }
  destruct (Hgen calls fresh Hall) as [Hst Hstack].
  change (respLogger.status (st_rl fresh)) with 0 in Hst.
  change (respLogger.statusStack (st_rl fresh)) with "" in Hstack.
  split; [|split; [exact Hst|]].
  - rewrite statusRecorded_after_run.
    change (respLogger.statusRecorded (st_rl fresh)) with false.
    apply not_true_is_false. intros Hex.
    apply existsb_exists in Hex as (c & Hin & Hc).
    rewrite Forall_forall in Hall.
    apply list_elem_of_In in Hin.
    rewrite (Hall c Hin) in Hc. discriminate.
  - intros Hh.
    destruct (Log_keysAndValues_shape now (st_rl (run calls fresh))) as [verb E].
    rewrite Hh, Hst, Hstack in E.
    rewrite run_addedKeyValuePairs in E.
    change (respLogger.addedKeyValuePairs (st_rl fresh)) with (@nil Any) in E.
    eexists. split; [|exact E]. reflexivity.
Qed.

End MoreInvariants.

(** ** The further properties at work on concrete inputs *)

Lemma recordStatus_stack_bounded_witness :
  let rl := newRespLogger exampleRequest FakeResponseWriter 0 in
  (exists kept dropped : string,
      "main.f()" = kept +:+ dropped
      /\ String.length kept
         = Nat.min (Z.to_nat (50 * 1024)) (String.length "main.f()")
      /\ respLogger.statusStack (recordStatus "main.f()" 500 rl) = LF +:+ kept)
  /\ (String.length (respLogger.statusStack (recordStatus "main.f()" 500 rl))
      <= S (Z.to_nat (50 * 1024)))%nat
  /\ respLogger.statusStack (recordStatus "main.f()" 500 rl) = LF +:+ "main.f()".
Proof.
  intros rl.
  destruct (recordStatus_stack_bounded "main.f()" 500 rl eq_refl)
    as (H1 & H2 & H3).
  split; [exact H1 | split; [exact H2|]].
  apply H3. apply Nat.leb_le. vm_compute. reflexivity.
Defined.

Lemma wrapped_writer_sees_same_calls_witness :
  let st := freshState exampleRequest FakeResponseWriter 0 tt in
  st_transport (step (C := fakeCollaborators) st (CallAddf "note" [])) = tt
  /\ st_transport (step (C := fakeCollaborators) st (CallLog 5)) = tt.
Proof.
  intros st.
  destruct (@wrapped_writer_sees_same_calls unit fakeCollaborators [] st)
    as (_ & Hquiet & _).
  split.
  - apply (Hquiet (CallAddf "note" [])); (reflexivity || discriminate).
  - apply (Hquiet (CallLog 5)); (reflexivity || discriminate).
Defined.

Lemma statusStack_follows_last_WriteHeader_witness :
  respLogger.statusStack
    (st_rl (run (C := fakeCollaborators)
              ([CallWriteHeader "a()" 500]
               ++ CallWriteHeader "b()" 404 :: [CallWrite "c()" "body"])
              (freshState exampleRequest FakeResponseWriter 0 tt))) = "".
Proof.
  apply (@statusStack_follows_last_WriteHeader unit fakeCollaborators
           [CallWriteHeader "a()" 500] [CallWrite "c()" "body"] "b()" 404
           (freshState exampleRequest FakeResponseWriter 0 tt)).
  repeat constructor.
Defined.

Lemma Write_echoes_error_output_witness :
  let rl := recordStatus "main.f()" 500
              (newRespLogger exampleRequest FakeResponseWriter 0) in
  respLogger.addedInfo (Write (C := fakeCollaborators) "" "oops" rl tt).1.1
  = (respLogger.addedInfo rl +:+ LF) +:+ ("logging error output: %q" +:+ LF).
Proof.
  intros rl.
  apply (@Write_echoes_error_output unit fakeCollaborators "" "oops" rl tt).
  reflexivity.
Defined.

Lemma only_writes_log_plain_200_witness :
  exists verb : string,
    Log_keysAndValues (C := fakeCollaborators) 7
      (st_rl (run (C := fakeCollaborators)
                [CallHeader; CallWrite "" "a"; CallAddKeyValue "k" (AInt 1);
                 CallWrite "" "b"]
                (freshState exampleRequest FakeResponseWriter 0 tt)))
    = [ AString "verb"; AString verb;
        AString "URI"; AString (RequestURI exampleRequest);
        AString "latency"; ADuration (time_Since 7 0);
        AString "userAgent"; AString (UserAgent exampleRequest);
        AString "audit-ID";
        AString (request_GetAuditIDTruncated (Collaborators := fakeCollaborators)
                   exampleRequest);
        AString "srcIP"; AString (RemoteAddr exampleRequest) ]
      ++ addedPairs [CallHeader; CallWrite "" "a"; CallAddKeyValue "k" (AInt 1);
                     CallWrite "" "b"]
      ++ [AString "resp"; AInt 200].
Proof.
  apply (@only_writes_log_plain_200 unit fakeCollaborators
           [CallHeader; CallWrite "" "a"; CallAddKeyValue "k" (AInt 1);
            CallWrite "" "b"]
           exampleRequest FakeResponseWriter 0 7 tt).
  - repeat constructor.
  - apply Exists_cons_tl, Exists_cons_hd. reflexivity.
Defined.

Lemma Hijack_without_Hijacker_witness :
  let rl := newRespLogger exampleRequest FakeResponseWriter 0 in
  (exists v : string, (Hijack (C := fakeCollaborators) rl tt).2 = Panic v)
  /\ respLogger.hijacked (Hijack (C := fakeCollaborators) rl tt).1.1 = true.
Proof.
  intros rl.
  destruct (@Hijack_without_Hijacker unit fakeCollaborators 0 rl tt eq_refl)
    as (Hpanic & _ & _).
  split; [exact Hpanic | reflexivity].
Defined.

Lemma foreign_context_values_keep_decorator_witness :
  let ctx := [(respLoggerContextKey, CtxRespLogger 0%nat)] in
  let foreign := [(foreignKey 1, CtxForeign (AInt 1))] in
  respLoggerFromContext (foreign ++ ctx) = respLoggerFromContext ctx
  /\ WithLogging (C := fakeCollaborators) noopHandler DefaultStacktracePred
       FakeResponseWriter (WithContext exampleRequest (foreign ++ ctx))
       (emptyWorld 3)
     = Panicked "multiple WithLogging calls!" (emptyWorld 3).
Proof.
  intros ctx foreign.
  destruct (@foreign_context_values_keep_decorator unit fakeCollaborators
              foreign ctx noopHandler DefaultStacktracePred FakeResponseWriter
              exampleRequest (emptyWorld 3)) as [H1 H2].
  - repeat constructor. discriminate.
  - split; [exact H1|]. apply H2. exists 0%nat. reflexivity.
Defined.

Lemma context_annotations_reach_decorator_witness :
  let s := (newLogged exampleRequest FakeResponseWriter (emptyWorld 3)).2 in
  let ctx := [(respLoggerContextKey, CtxRespLogger 0%nat)] in
  AddKeyValueCtx [] "k" (AInt 1) s = s
  /\ heap (AddKeyValueCtx ctx "k" (AInt 1) s) !! 0%nat
     = Some (AddKeyValue "k" (AInt 1)
               (newRespLogger exampleRequest FakeResponseWriter 0))
  /\ heap (AddInfof (C := fakeCollaborators) ctx "note" [] s) !! 0%nat
     = Some (Addf (C := fakeCollaborators) "note" []
               (newRespLogger exampleRequest FakeResponseWriter 0)).
Proof.
  intros s ctx.
  destruct (@context_annotations_reach_decorator unit fakeCollaborators
              [] "k" (AInt 1) "note" [] s) as [Hnone _].
  destruct (@context_annotations_reach_decorator unit fakeCollaborators
              ctx "k" (AInt 1) "note" [] s) as [_ Hsome].
  destruct (Hsome 0%nat (newRespLogger exampleRequest FakeResponseWriter 0)
              eq_refl eq_refl) as (H1 & H2 & _).
  split; [apply Hnone; reflexivity | split; [exact H1 | exact H2]].
Defined.

Lemma WithLogging_logs_once_and_rethrows_witness :
  (exists s2,
      WithLogging (C := fakeCollaborators) (fun _ _ s => Panicked "boom" s)
        DefaultStacktracePred FakeResponseWriter exampleRequest (emptyWorld 3)
      = Panicked "boom" s2
      /\ length (sink s2) = 1%nat)
  /\ (exists s2,
         WithLogging (C := fakeCollaborators) (fun _ _ s => Panicked "boom" s)
           DefaultStacktracePred FakeResponseWriter exampleRequest (emptyWorld 2)
         = Panicked "boom" s2
         /\ sink s2 = []).
Proof.
  split.
  - destruct (@WithLogging_logs_once_and_rethrows unit fakeCollaborators
                (fun _ _ s => Panicked "boom" s) DefaultStacktracePred
                FakeResponseWriter exampleRequest (emptyWorld 3) eq_refl)
      as [_ Hlog].
    assert (3 <= verbosity (emptyWorld 3)) as Hv by (vm_compute; discriminate).
    eexists. split.
    + exact (proj2 (Hlog Hv
                      (set_heap
                         [StacktraceWhen DefaultStacktracePred
                            (newRespLogger exampleRequest FakeResponseWriter 0)]
                         (emptyWorld 3))
                      (StacktraceWhen DefaultStacktracePred
                         (newRespLogger exampleRequest FakeResponseWriter 0))
                      eq_refl) "boom" eq_refl).
    + reflexivity.
  - destruct (@WithLogging_logs_once_and_rethrows unit fakeCollaborators
                (fun _ _ s => Panicked "boom" s) DefaultStacktracePred
                FakeResponseWriter exampleRequest (emptyWorld 2) eq_refl)
      as [Hquiet _].
    eexists. split.
    + apply Hquiet. vm_compute. reflexivity.
    + reflexivity.
Defined.

Lemma LogOf_inside_WithLogging_witness :
  LogOf exampleRequest FakeResponseWriter = PassthroughLogger
  /\ exists (w' : ResponseWriter) (req' : Request) (s' : @World unit)
            (l : respLogger),
       WithLogging (C := fakeCollaborators) noopHandler
         (StatusIsNot [200; 404]) FakeResponseWriter exampleRequest
         (emptyWorld 0)
       = (if klog_V_Enabled 3 (emptyWorld 0)
          then run_deferred
                 (Log_at (C := fakeCollaborators) (length (heap (emptyWorld 0))))
                 (noopHandler w' req' s')
          else noopHandler w' req' s')
       /\ LogOf req' w' = RespLoggerLogger (length (heap (emptyWorld 0)))
       /\ heap s' !! length (heap (emptyWorld 0)) = Some l
       /\ respLogger.logStacktracePred l = StatusIsNot [200; 404]
       /\ respLogger.w l = FakeResponseWriter
       /\ respLogger.req l = exampleRequest
       /\ respLogger.statusRecorded l = false.
Proof.
  apply (@LogOf_inside_WithLogging unit fakeCollaborators noopHandler
           (StatusIsNot [200; 404]) FakeResponseWriter exampleRequest
           (emptyWorld 0)).
  reflexivity.
Defined.


Lemma no_write_logs_status_zero_witness :
  let rl := st_rl (run (C := fakeCollaborators)
                     [CallAddKeyValue "k" (AInt 1); CallStacktraceWhen (StatusIsNot [])]
                     (freshState exampleRequest FakeResponseWriter 0 tt)) in
  respLogger.statusRecorded rl = false
  /\ exists header : list Any,
       length header = 12%nat
       /\ Log_keysAndValues (C := fakeCollaborators) 9 rl
          = header ++ [AString "k"; AInt 1] ++ [AString "resp"; AInt 0] ++ [].
Proof.
  intros rl.
  destruct (@no_write_logs_status_zero unit fakeCollaborators
              [CallAddKeyValue "k" (AInt 1); CallStacktraceWhen (StatusIsNot [])]
              exampleRequest FakeResponseWriter 0 9 tt)
    as (Hrec & _ & Hlog).
  - repeat constructor.
  - split; [exact Hrec|]. apply Hlog. reflexivity.
Defined.
